(** * Monitoring-dan-Logging: the inference proxy and the Prometheus exporter

    A shallow embedding of [7.inference.py] (the Flask proxy in front of
    [mlflow models serve]) and of [3.prometheus_exporter.py] (the sample
    probe loop), with the properties that the specification states about
    them.

    Conventions of the embedding:
    - a Python value decoded from JSON is a [pyval];
    - a Python [float] is the rational it denotes (rounding, infinities
      and NaN are outside the model); a Prometheus counter counts in [N];
    - everything that can raise runs in a state-and-exception monad [M]:
      a raise keeps the side effects made before it, as in Python;
    - what the outside world answers (the HTTP calls of [requests], the
      body Flask parsed, the file on disk, the readings of [time.time()])
      is an oracle record read by the computation; every outbound HTTP call
      is appended to a trace kept in the state;
    - [print] and [traceback.print_exc] only write to the standard
      streams and are left out. *)

From Stdlib Require Import ZArith QArith String List Bool Lia.
Import ListNotations.

Set Implicit Arguments.

(** ** Python values and exceptions *)

(** What [json.loads] / [response.json()] / [request.json] can produce.
    A [dict] is an association list in insertion order; the decoder keeps
    one binding per key. *)
#[warnings="-register-all"]
Inductive pyval : Type :=
| PyNone
| PyBool (b : bool)
| PyInt (z : Z)
| PyFloat (q : Q)
| PyStr (s : string)
| PyList (l : list pyval)
| PyDict (d : list (string * pyval)).

(** The exception classes that the handlers of the two programs tell
    apart.  [HTTPError] is the subclass of [RequestException] raised by
    [raise_for_status]; it carries [e.response.status_code] and
    [e.response.text].  [RequestException] stands for every other member
    of the [requests.exceptions] hierarchy (ConnectionError, Timeout, ...).
    [JSONDecodeError] is [json.JSONDecodeError] of the standard library.
    The remaining constructors are built-in exceptions; [OtherException]
    is any other subclass of [Exception] (a werkzeug [HTTPException]
    raised by [request.json], an [OSError], ...).  The string is [str(e)]. *)
Inductive exn : Type :=
| HTTPError (status_code : Z) (text : string)
| RequestException (msg : string)
| JSONDecodeError (msg : string)
| IndexError (msg : string)
| KeyError (msg : string)
| TypeError (msg : string)
| ValueError (msg : string)
| OverflowError (msg : string)
| OtherException (msg : string).

(** [isinstance(e, requests.exceptions.RequestException)] *)
Definition is_RequestException (e : exn) : bool :=
  match e with
  | HTTPError _ _ | RequestException _ => true
  | _ => false
  end.

(** [str(e)] *)
Definition str_exn (e : exn) : string :=
  match e with
  | HTTPError _ t => t  (* only ever printed by the programs *)
  | RequestException m | JSONDecodeError m | IndexError m | KeyError m
  | TypeError m | ValueError m | OverflowError m | OtherException m => m
  end.

Inductive result (A : Type) : Type :=
| Ok (a : A)
| Raise (e : exn).
Arguments Ok {A} a.
Arguments Raise {A} e.

(** ** The state-and-exception monad *)

Section Monad.
(** [E] is the oracle of the outside world, [W] the mutable state. *)
Variables E W : Type.

Definition M (A : Type) : Type := E -> W -> result A * W.

Definition ret {A} (a : A) : M A := fun _ w => (Ok a, w).

Definition raise {A} (e : exn) : M A := fun _ w => (Raise e, w).

Definition bind {A B} (m : M A) (k : A -> M B) : M B :=
  fun env w =>
    match m env w with
    | (Ok a, w') => k a env w'
    | (Raise e, w') => (Raise e, w')
    end.

(** [try: body  except ...: handler e].  A handler that matches no
    clause re-raises. *)
Definition try_except {A} (body : M A) (handler : exn -> M A) : M A :=
  fun env w =>
    match body env w with
    | (Ok a, w') => (Ok a, w')
    | (Raise e, w') => handler e env w'
    end.

(** Lift an outcome decided by the outside world. *)
Definition ask {A} (f : E -> result A) : M A := fun env w => (f env, w).

Definition gets {A} (f : W -> A) : M A := fun _ w => (Ok (f w), w).

Definition modify (f : W -> W) : M unit := fun _ w => (Ok tt, f w).
End Monad.

Arguments ret {E W A} a.
Arguments raise {E W A} e.
Arguments bind {E W A B} m k.
Arguments try_except {E W A} body handler.
Arguments ask {E W A} f.
Arguments gets {E W A} f.
Arguments modify {E W} f.

Declare Scope py_scope.
Delimit Scope py_scope with py.
Notation "x <- m ;; k" := (bind m (fun x => k))
  (at level 61, m at next level, right associativity) : py_scope.
Notation "m ;; k" := (bind m (fun _ => k))
  (at level 61, right associativity) : py_scope.

(** ** Python built-ins used by the two programs *)

(** [bool(v)], the truth value tested by [if not data]. *)
Definition truthy (v : pyval) : bool :=
  match v with
  | PyNone => false
  | PyBool b => b
  | PyInt z => negb (z =? 0)%Z
  | PyFloat q => negb (Qeq_bool q 0)
  | PyStr s => negb (String.eqb s EmptyString)
  | PyList l => match l with [] => false | _ => true end
  | PyDict d => match d with [] => false | _ => true end
  end.

(** [k in d] and [d[k]] for a dict with string keys. *)
Fixpoint dict_get (k : string) (d : list (string * pyval)) : option pyval :=
  match d with
  | [] => None
  | (k', v) :: d' => if String.eqb k k' then Some v else dict_get k d'
  end.

Definition dict_contains (k : string) (d : list (string * pyval)) : bool :=
  match dict_get k d with Some _ => true | None => false end.

(** [v[0]].  A list gives its first element, a [str] its first character;
    the keys of a decoded dict are strings, so the integer key [0] is
    never found; anything else is not subscriptable. *)
Definition subscript0 (v : pyval) : result pyval :=
  match v with
  | PyList (x :: _) => Ok x
  | PyList [] => Raise (IndexError "list index out of range")
  | PyStr (String c _) => Ok (PyStr (String c EmptyString))
  | PyStr EmptyString => Raise (IndexError "string index out of range")
  | PyDict _ => Raise (KeyError "0")
  | _ => Raise (TypeError "object is not subscriptable")
  end.

(** A [requests.Response]: its status, its body as text, and what
    [response.json()] makes of the body. *)
Record response : Type := {
  status_code : Z;
  text : string;
  json : result pyval
}.

(** [response.raise_for_status()]: an [HTTPError] for 4xx and 5xx. *)
Definition raise_for_status {E W} (r : response) : M E W unit :=
  if ((400 <=? status_code r) && (status_code r <? 600))%Z
  then raise (HTTPError (status_code r) (text r))
  else ret tt.

(** What a Flask view returns: a body and a status. *)
Inductive body : Type :=
| Json (v : pyval)
| Plain (s : string)
| Exposition (total : N) (durations : list Q) (status : Q).

Definition http_response : Type := (body * Z)%type.

(** [jsonify(v)] *)
Definition jsonify (v : pyval) : body := Json v.

(** [{"error": msg}] *)
Definition error_dict (msg : string) : pyval := PyDict [("error"%string, PyStr msg)].

(** * The proxy, [7.inference.py] *)

Module Inference.

(** Outbound calls of the proxy to the model server. *)
Inductive event : Type :=
| GET_ping
| POST_predict (payload : pyval).

(** The outside world during one request. *)
Record env : Type := {
  ping : result response;
    (* requests.get(<serve url with /ping>, timeout=1) *)
  request_json : result pyval;
    (* request.json: the parsed body, None, or a werkzeug exception *)
  backend : pyval -> result response;
    (* requests.post(MLFLOW_MODEL_SERVE_URL, headers=headers, json=data) *)
  clock : nat -> Q
    (* the n-th reading of time.time() *)
}.

(** The metrics registry, the trace of outbound calls and the number
    of clock readings taken so far.  The histogram is the list of its
    observations, oldest first; bucket counts and sum are functions of
    it. *)
Record world : Type := {
  PREDICTIONS_TOTAL : N;
  PREDICTION_DURATION_SECONDS : list Q;
  MLFLOW_SERVE_STATUS : Q;
  outbound : list event;
  clock_reads : nat
}.

Definition py (A : Type) : Type := M env world A.

(** [MLFLOW_SERVE_STATUS.set(v)] *)
Definition MLFLOW_SERVE_STATUS_set (v : Q) : py unit :=
  modify (fun w =>
    {| PREDICTIONS_TOTAL := PREDICTIONS_TOTAL w;
       PREDICTION_DURATION_SECONDS := PREDICTION_DURATION_SECONDS w;
       MLFLOW_SERVE_STATUS := v;
       outbound := outbound w;
       clock_reads := clock_reads w |}).

(** [PREDICTIONS_TOTAL.inc()] *)
Definition PREDICTIONS_TOTAL_inc : py unit :=
  modify (fun w =>
    {| PREDICTIONS_TOTAL := PREDICTIONS_TOTAL w + 1;
       PREDICTION_DURATION_SECONDS := PREDICTION_DURATION_SECONDS w;
       MLFLOW_SERVE_STATUS := MLFLOW_SERVE_STATUS w;
       outbound := outbound w;
       clock_reads := clock_reads w |}).

(** [PREDICTION_DURATION_SECONDS.observe(d)] *)
Definition PREDICTION_DURATION_SECONDS_observe (d : Q) : py unit :=
  modify (fun w =>
    {| PREDICTIONS_TOTAL := PREDICTIONS_TOTAL w;
       PREDICTION_DURATION_SECONDS := PREDICTION_DURATION_SECONDS w ++ [d];
       MLFLOW_SERVE_STATUS := MLFLOW_SERVE_STATUS w;
       outbound := outbound w;
       clock_reads := clock_reads w |}).

Definition emit (ev : event) : py unit :=
  modify (fun w =>
    {| PREDICTIONS_TOTAL := PREDICTIONS_TOTAL w;
       PREDICTION_DURATION_SECONDS := PREDICTION_DURATION_SECONDS w;
       MLFLOW_SERVE_STATUS := MLFLOW_SERVE_STATUS w;
       outbound := outbound w ++ [ev];
       clock_reads := clock_reads w |}).

(** [time.time()] *)
Definition time_time : py Q :=
  fun e w =>
    (Ok (clock e (clock_reads w)),
     {| PREDICTIONS_TOTAL := PREDICTIONS_TOTAL w;
        PREDICTION_DURATION_SECONDS := PREDICTION_DURATION_SECONDS w;
        MLFLOW_SERVE_STATUS := MLFLOW_SERVE_STATUS w;
        outbound := outbound w;
        clock_reads := S (clock_reads w) |}).

(** [requests.get(MLFLOW_MODEL_SERVE_URL.replace('/predict', '/ping'), timeout=1)] *)
Definition requests_get_ping : py response :=
  (emit GET_ping ;; ask ping)%py.

(** [requests.post(MLFLOW_MODEL_SERVE_URL, headers=headers, json=data)] *)
Definition requests_post (data : pyval) : py response :=
  (emit (POST_predict data) ;; ask (fun e => backend e data))%py.

(** [response.json()] *)
Definition response_json (r : response) : py pyval :=
  ask (fun _ => json r).

Definition check_mlflow_serve_health : py bool :=
  try_except
    (response <- requests_get_ping ;;
     if (status_code response =? 200)%Z then
       (MLFLOW_SERVE_STATUS_set 1 ;; ret true)
     else
       (MLFLOW_SERVE_STATUS_set 0 ;; ret false))%py
    (fun e =>
       if is_RequestException e then
         (MLFLOW_SERVE_STATUS_set 0 ;; ret false)%py
       else raise e).

Definition predict : py http_response :=
  (healthy <- check_mlflow_serve_health ;;
   if negb healthy then
     ret (jsonify (error_dict "MLflow model serve endpoint is unreachable or unhealthy."), 503%Z)
   else
     start_time <- time_time ;;
     try_except
       (data <- ask request_json ;;
        if negb (truthy data) then
          ret (jsonify (error_dict "Invalid JSON input"), 400%Z)
        else
          response <- requests_post data ;;
          raise_for_status response ;;
          prediction_result <- response_json response ;;
          PREDICTIONS_TOTAL_inc ;;
          end_time <- time_time ;;
          PREDICTION_DURATION_SECONDS_observe (end_time - start_time) ;;
          ret (jsonify prediction_result, 200%Z))
       (fun e =>
          match e with
          | HTTPError code txt =>
              ret (jsonify (error_dict ("Error from model serve: " ++ txt)), code)
          | RequestException _ =>
              ret (jsonify (error_dict "Failed to connect to MLflow model serve endpoint."), 503%Z)
          | _ =>
              ret (jsonify (error_dict (str_exn e)), 500%Z)
          end))%py.

(** [generate_latest()]: the registry as it stands. *)
Definition generate_latest : py body :=
  gets (fun w => Exposition (PREDICTIONS_TOTAL w)
                            (PREDICTION_DURATION_SECONDS w)
                            (MLFLOW_SERVE_STATUS w)).

Definition metrics : py http_response :=
  (check_mlflow_serve_health ;;
   snapshot <- generate_latest ;;
   ret (snapshot, 200%Z))%py.

Definition health_check : py http_response :=
  (healthy <- check_mlflow_serve_health ;;
   if healthy then
     ret (Plain "MLflow model serve endpoint is reachable", 200%Z)
   else
     ret (Plain "MLflow model serve endpoint is unreachable", 503%Z))%py.

End Inference.

(** ** The Flask application around the three views *)

Module InferenceApp.
Import Inference.

(** The routes registered with [@app.route]: [POST /predict],
    [GET /metrics] and [GET /health]. *)
Inductive route : Type :=
| Predict
| Metrics
| Health.

Definition view (r : route) : py http_response :=
  match r with
  | Predict => predict
  | Metrics => metrics
  | Health => health_check
  end.

(** One request served by Flask: the view runs, and an exception that
    leaves it becomes a 500.  The registry keeps what the view did. *)
Definition handle (r : route) (e : env) (w : world) : http_response * world :=
  match view r e w with
  | (Ok resp, w') => (resp, w')
  | (Raise _, w') => ((Plain "Internal Server Error", 500%Z), w')
  end.

(** Requests served one after the other, each with what the outside
    world answers during it. *)
Fixpoint serve (reqs : list (route * env)) (w : world)
  : list http_response * world :=
  match reqs with
  | [] => ([], w)
  | (r, e) :: rest =>
      let (resp, w1) := handle r e w in
      let (resps, w2) := serve rest w1 in
      (resp :: resps, w2)
  end.

End InferenceApp.

(** ** The address of the model server and of its ping endpoint *)

Module InferenceConfig.

(** [os.getenv(key, default)] over the environment of the process. *)
Fixpoint getenv (environ : list (string * string)) (key default : string) : string :=
  match environ with
  | [] => default
  | (k, v) :: rest => if String.eqb key k then v else getenv rest key default
  end.

Definition MLFLOW_MODEL_SERVE_URL (environ : list (string * string)) : string :=
  getenv environ "MLFLOW_MODEL_SERVE_URL" "http://127.0.0.1:5005/predict".

(** [s.replace(old, new)] for a non-empty [old]: every occurrence of
    [old], found from the left and without overlap, becomes [new].
    [skip] counts the characters of the occurrence being replaced that
    are still to be passed over. *)
Fixpoint replace_from (skip : nat) (old new s : string) : string :=
  match s with
  | EmptyString => EmptyString
  | String c s' =>
      match skip with
      | S k => replace_from k old new s'
      | O =>
          if String.prefix old s
          then new ++ replace_from (String.length old - 1) old new s'
          else String c (replace_from 0 old new s')
      end
  end.

Definition replace (old new s : string) : string := replace_from 0 old new s.

(** The address that [check_mlflow_serve_health] pings:
    [MLFLOW_MODEL_SERVE_URL.replace('/predict', '/ping')]. *)
Definition ping_url (environ : list (string * string)) : string :=
  replace "/predict" "/ping" (MLFLOW_MODEL_SERVE_URL environ).

(** [s.find(old)] for a non-empty [old]: where [old] first occurs in
    [s], if it does. *)
Fixpoint find (old s : string) : option nat :=
  match s with
  | EmptyString => None
  | String c s' =>
      if String.prefix old s then Some O
      else match find old s' with
           | Some i => Some (S i)
           | None => None
           end
  end.

End InferenceConfig.


(** * The sample probe, [3.prometheus_exporter.py] *)

Module Exporter.

(** Outbound calls of the exporter to the model server. *)
Inductive event : Type :=
| POST_invocations (payload : pyval).

(** The outside world during one tick of the loop. *)
Record env : Type := {
  path_exists : result bool;
    (* DUMMY_INPUT_JSON_PATH.exists() *)
  load : result pyval;
    (* open(DUMMY_INPUT_JSON_PATH, "r") and json.load(f) *)
  backend : pyval -> result response;
    (* requests.post(MLFLOW_MODEL_SERVE_URL, headers=headers, json=payload) *)
  clock : nat -> Q
    (* the n-th reading of time.time() *)
}.

(** The three gauges (a gauge starts at 0), the trace of outbound calls
    and the number of clock readings taken so far. *)
Record world : Type := {
  LAST_PREDICTION_VALUE : Q;
  LATENCY_EXPORTER : Q;
  MLFLOW_SERVE_STATUS_EXPORTER : Q;
  outbound : list event;
  clock_reads : nat
}.

Definition py (A : Type) : Type := M env world A.

Definition emit (ev : event) : py unit :=
  modify (fun w =>
    {| LAST_PREDICTION_VALUE := LAST_PREDICTION_VALUE w;
       LATENCY_EXPORTER := LATENCY_EXPORTER w;
       MLFLOW_SERVE_STATUS_EXPORTER := MLFLOW_SERVE_STATUS_EXPORTER w;
       outbound := outbound w ++ [ev];
       clock_reads := clock_reads w |}).

(** [time.time()] *)
Definition time_time : py Q :=
  fun e w =>
    (Ok (clock e (clock_reads w)),
     {| LAST_PREDICTION_VALUE := LAST_PREDICTION_VALUE w;
        LATENCY_EXPORTER := LATENCY_EXPORTER w;
        MLFLOW_SERVE_STATUS_EXPORTER := MLFLOW_SERVE_STATUS_EXPORTER w;
        outbound := outbound w;
        clock_reads := S (clock_reads w) |}).

(** [time.sleep(15)] *)
Definition time_sleep (seconds : Q) : py unit := ret tt.

(** [requests.post(MLFLOW_MODEL_SERVE_URL, headers=headers, json=payload)] *)
Definition requests_post (payload : pyval) : py response :=
  (emit (POST_invocations payload) ;; ask (fun e => backend e payload))%py.

(** [response.json()] *)
Definition response_json (r : response) : py pyval :=
  ask (fun _ => json r).

(** An operation on values that raises or returns, without effects. *)
Definition lift {A} (r : result A) : py A := ask (fun _ => r).

(** [isinstance(v, list)] and [isinstance(v, dict)] *)
Definition isinstance_list (v : pyval) : bool :=
  match v with PyList _ => true | _ => false end.

Definition isinstance_dict (v : pyval) : bool :=
  match v with PyDict _ => true | _ => false end.

(** [k in v], evaluated by the source on dicts only. *)
Definition contains (k : string) (v : pyval) : bool :=
  match v with
  | PyDict d => dict_contains k d
  | _ => false
  end.

(** [v[k]] for a string key. *)
Definition getitem (k : string) (v : pyval) : result pyval :=
  match v with
  | PyDict d =>
      match dict_get k d with
      | Some x => Ok x
      | None => Raise (KeyError k)
      end
  | _ => Raise (TypeError "indices must be integers")
  end.

(** An [int] converts to a [float] below this magnitude, the first
    integer that rounds to 2^1024. *)
Definition int_too_large_for_float : Z := (2 ^ 1024 - 2 ^ 970)%Z.
Arguments int_too_large_for_float : simpl never.

Section Builtins.

(** [float(s)] on a [str]: the number that Python parses from it, or
    [None] where it raises [ValueError]. *)
Variable float_of_str : string -> option Q.

(** [float(v)] *)
Definition float (v : pyval) : result Q :=
  match v with
  | PyFloat q => Ok q
  | PyInt z =>
      if (Z.abs z <? int_too_large_for_float)%Z then Ok (inject_Z z)
      else Raise (OverflowError "int too large to convert to float")
  | PyBool b => Ok (if b then 1 else 0)
  | PyStr s =>
      match float_of_str s with
      | Some q => Ok q
      | None => Raise (ValueError "could not convert string to float")
      end
  | _ => Raise (TypeError "float() argument must be a string or a real number")
  end.

(** [f"{v:.2f}"]: defined on numbers only. *)
Definition format_2f (v : pyval) : result unit :=
  match v with
  | PyFloat _ | PyBool _ => Ok tt
  | PyInt z =>
      if (Z.abs z <? int_too_large_for_float)%Z then Ok tt
      else Raise (OverflowError "int too large to convert to float")
  | PyStr _ => Raise (ValueError "Unknown format code 'f' for object of type 'str'")
  | _ => Raise (TypeError "unsupported format string passed to __format__")
  end.

(** [Gauge.set(value)] stores [float(value)]. *)
Definition LAST_PREDICTION_VALUE_set (value : pyval) : py unit :=
  (x <- lift (float value) ;;
   modify (fun w =>
     {| LAST_PREDICTION_VALUE := x;
        LATENCY_EXPORTER := LATENCY_EXPORTER w;
        MLFLOW_SERVE_STATUS_EXPORTER := MLFLOW_SERVE_STATUS_EXPORTER w;
        outbound := outbound w;
        clock_reads := clock_reads w |}))%py.

Definition LATENCY_EXPORTER_set (value : pyval) : py unit :=
  (x <- lift (float value) ;;
   modify (fun w =>
     {| LAST_PREDICTION_VALUE := LAST_PREDICTION_VALUE w;
        LATENCY_EXPORTER := x;
        MLFLOW_SERVE_STATUS_EXPORTER := MLFLOW_SERVE_STATUS_EXPORTER w;
        outbound := outbound w;
        clock_reads := clock_reads w |}))%py.

Definition MLFLOW_SERVE_STATUS_EXPORTER_set (value : pyval) : py unit :=
  (x <- lift (float value) ;;
   modify (fun w =>
     {| LAST_PREDICTION_VALUE := LAST_PREDICTION_VALUE w;
        LATENCY_EXPORTER := LATENCY_EXPORTER w;
        MLFLOW_SERVE_STATUS_EXPORTER := x;
        outbound := outbound w;
        clock_reads := clock_reads w |}))%py.

(** The [if] / [elif] / [else] that turns the decoded answer of the
    model server into the value returned as the prediction. *)
Definition normalize (prediction_value : pyval) : result pyval :=
  if isinstance_list prediction_value then
    subscript0 prediction_value
  else if isinstance_dict prediction_value
          && contains "predictions" prediction_value then
    match getitem "predictions" prediction_value with
    | Ok p => subscript0 p
    | Raise e => Raise e
    end
  else
    match float prediction_value with
    | Ok x => Ok (PyFloat x)
    | Raise e => Raise e
    end.

(** The first [try] block: [Some sample_data] when the function goes
    on, [None] when it has returned [None, None]. *)
Definition load_sample_data : py (option pyval) :=
  try_except
    (present <- ask path_exists ;;
     if (present : bool) then
       (sample_data <- ask load ;; ret (Some sample_data))
     else
       ret None)%py
    (fun e =>
       match e with
       | JSONDecodeError _ => ret None
       | _ => ret None
       end).

Definition get_sample_prediction_from_api : py (pyval * pyval) :=
  (loaded <- load_sample_data ;;
   match loaded with
   | None => ret (PyNone, PyNone)
   | Some sample_data =>
       start_time <- time_time ;;
       try_except
         (let payload := PyDict [("inputs"%string, sample_data)] in
          response <- requests_post payload ;;
          raise_for_status response ;;
          prediction_value <- response_json response ;;
          now <- time_time ;;
          let latency_ms := ((now - start_time) * 1000)%Q in
          MLFLOW_SERVE_STATUS_EXPORTER_set (PyInt 1) ;;
          prediction <- lift (normalize prediction_value) ;;
          ret (prediction, PyFloat latency_ms))
         (fun e =>
            if is_RequestException e then
              (MLFLOW_SERVE_STATUS_EXPORTER_set (PyInt 0) ;;
               ret (PyNone, PyNone))
            else
              ret (PyNone, PyNone))
   end)%py.

(** [prediction is not None] *)
Definition is_not_None (v : pyval) : bool :=
  match v with PyNone => false | _ => true end.

(** The body of [while True]. *)
Definition tick : py unit :=
  (r <- get_sample_prediction_from_api ;;
   let prediction := fst r in
   let latency := snd r in
   (if is_not_None prediction then
      LAST_PREDICTION_VALUE_set prediction ;;
      LATENCY_EXPORTER_set latency ;;
      lift (format_2f prediction) ;;
      lift (format_2f latency)
    else
      ret tt) ;;
   time_sleep 15)%py.

(** [while True] over the ticks of a run, each with what the outside
    world answers during it.  An exception that leaves the body ends the
    loop, and with it the process. *)
Fixpoint main_loop (ticks : list env) (w : world) : result unit * world :=
  match ticks with
  | [] => (Ok tt, w)
  | e :: rest =>
      match tick e w with
      | (Ok _, w') => main_loop rest w'
      | (Raise x, w') => (Raise x, w')
      end
  end.

End Builtins.

(** The registry when the process starts. *)
Definition initial : world :=
  {| LAST_PREDICTION_VALUE := 0;
     LATENCY_EXPORTER := 0;
     MLFLOW_SERVE_STATUS_EXPORTER := 0;
     outbound := [];
     clock_reads := 0 |}.

End Exporter.


(** * Concrete answers of the outside world, for the examples *)

(** A response with status [code] whose body decodes to [v]. *)
Definition answer (code : Z) (v : pyval) : response :=
  {| status_code := code; text := ""; json := Ok v |}.

(** A clock that advances by a quarter of a second per reading. *)
Definition quarter_clock (n : nat) : Q := (inject_Z (Z.of_nat n) * 0.25)%Q.

(** * Vocabulary of the properties of the sample probe *)

Module ExporterSpec.
Import Exporter.

(** The payload that the probe posts for a given sample. *)
Definition payload_of (sample_data : pyval) : pyval :=
  PyDict [("inputs"%string, sample_data)].

(** The three backend-facing statements of the second [try] block seen
    as one forward: post, [raise_for_status], [response.json()]. *)
Definition forward_outcome (e : env) (payload : pyval) : result pyval :=
  match backend e payload with
  | Raise x => Raise x
  | Ok r =>
      if ((400 <=? status_code r) && (status_code r <? 600))%Z
      then Raise (HTTPError (status_code r) (text r))
      else json r
  end.

(** What the first [try] block leaves: the sample, or nothing when the
    file is missing, unreadable or not JSON. *)
Definition loaded_sample (e : env) : option pyval :=
  match path_exists e with
  | Ok true =>
      match load e with
      | Ok sample_data => Some sample_data
      | Raise _ => None
      end
  | Ok false => None
  | Raise _ => None
  end.

(** A [float(s)] for the examples, which never meet a [str]. *)
Definition no_str_is_a_float (s : string) : option Q := None.

Definition sample_input : pyval :=
  PyList [PyDict [("total_sqft"%string, PyFloat 1000); ("bath"%string, PyFloat 2);
                  ("bhk"%string, PyFloat 3); ("price_per_sqft"%string, PyFloat 5000)]].

(** [dummy_input.json] is in place and the model server answers [r]. *)
Definition probe_answered (r : result response) : env :=
  {| path_exists := Ok true;
     load := Ok sample_input;
     backend := fun _ => r;
     clock := quarter_clock |}.

(** [dummy_input.json] is missing. *)
Definition file_missing (r : result response) : env :=
  {| path_exists := Ok false;
     load := Raise (OtherException "No such file or directory");
     backend := fun _ => r;
     clock := quarter_clock |}.

(** The registry after a tick that succeeded with prediction 55.4. *)
Definition after_success : world :=
  {| LAST_PREDICTION_VALUE := 55.4;
     LATENCY_EXPORTER := 250;
     MLFLOW_SERVE_STATUS_EXPORTER := 1;
     outbound := [POST_invocations (payload_of sample_input)];
     clock_reads := 2 |}.

End ExporterSpec.

(** * Vocabulary of further properties of the sample probe *)

Module ExporterExtraSpec.
Import Exporter ExporterSpec.

(** The predictions that the loop body gets through: [None], which it
    skips, and the numbers that [Gauge.set] can convert and [.2f] can
    format. *)
Definition loop_survives (prediction : pyval) : bool :=
  match prediction with
  | PyNone | PyFloat _ | PyBool _ => true
  | PyInt z => (Z.abs z <? int_too_large_for_float)%Z
  | _ => false
  end.

(** The prediction that one tick obtains, read off the outside world:
    [None] unless the sample loads, the forward succeeds and the answer
    normalises. *)
Definition predicted (float_of_str : string -> option Q) (e : env) : pyval :=
  match loaded_sample e with
  | None => PyNone
  | Some sample_data =>
      match forward_outcome e (payload_of sample_data) with
      | Raise _ => PyNone
      | Ok v =>
          match normalize float_of_str v with
          | Ok p => p
          | Raise _ => PyNone
          end
      end
  end.

(** The clock of a tick does not run backwards. *)
Definition clock_monotone (e : env) : Prop :=
  forall n, clock e n <= clock e (S n).

(** The reachability gauge holds 0 or 1. *)
Definition status_is_bit (w : world) : Prop :=
  MLFLOW_SERVE_STATUS_EXPORTER w = 0 \/ MLFLOW_SERVE_STATUS_EXPORTER w = 1.

(** The registry once a tick has stored a prediction and a latency. *)
Definition published (w : world) (prediction latency : Q) : world :=
  {| LAST_PREDICTION_VALUE := prediction;
     LATENCY_EXPORTER := latency;
     MLFLOW_SERVE_STATUS_EXPORTER := MLFLOW_SERVE_STATUS_EXPORTER w;
     outbound := outbound w;
     clock_reads := clock_reads w |}.

(** A [float(s)] that knows one string. *)
Definition only_7_2_is_a_float (s : string) : option Q :=
  if String.eqb s "7.2" then Some 7.2 else None.

End ExporterExtraSpec.

(** * Vocabulary of the properties of the proxy *)

Module InferenceSpec.
Import Inference.

(** The contract of [requests]: a call returns a response or raises a
    member of its own exception hierarchy (connection error, timeout,
    ...). *)
Definition requests_contract (o : result response) : Prop :=
  match o with
  | Ok _ => True
  | Raise x => is_RequestException x = true
  end.

(** The model server answered the ping with status 200. *)
Definition responds_200 (o : result response) : Prop :=
  exists r, o = Ok r /\ status_code r = 200%Z.

(** The three backend-facing statements of the [try] block of [predict]
    seen as one forward: post, [raise_for_status], [response.json()]. *)
Definition forward_outcome (e : env) (data : pyval) : result pyval :=
  match backend e data with
  | Raise x => Raise x
  | Ok r =>
      if ((400 <=? status_code r) && (status_code r <? 600))%Z
      then Raise (HTTPError (status_code r) (text r))
      else json r
  end.

(** The body that Flask parsed is missing or empty: [request.json]
    evaluates to a value that [not data] accepts. *)
Definition body_empty (o : result pyval) : Prop :=
  exists data, o = Ok data /\ truthy data = false.

Definition count_pings (evs : list event) : nat :=
  length (filter (fun ev => match ev with GET_ping => true | _ => false end) evs).

Definition count_posts (evs : list event) : nat :=
  length (filter (fun ev => match ev with POST_predict _ => true | _ => false end) evs).

(** The state left by a health check that stored [v] in the gauge. *)
Definition pinged (w : world) (v : Q) : world :=
  {| PREDICTIONS_TOTAL := PREDICTIONS_TOTAL w;
     PREDICTION_DURATION_SECONDS := PREDICTION_DURATION_SECONDS w;
     MLFLOW_SERVE_STATUS := v;
     outbound := outbound w ++ [GET_ping];
     clock_reads := clock_reads w |}.

(** The registry and trace of a process that has just started. *)
Definition fresh : world :=
  {| PREDICTIONS_TOTAL := 0;
     PREDICTION_DURATION_SECONDS := [];
     MLFLOW_SERVE_STATUS := 0;
     outbound := [];
     clock_reads := 0 |}.

(** The model server is down: nothing listens on its port. *)
Definition server_down (body : result pyval) : env :=
  {| ping := Raise (RequestException "Connection refused");
     request_json := body;
     backend := fun _ => Raise (RequestException "Connection refused");
     clock := quarter_clock |}.

(** The model server is up and answers every post with [r]. *)
Definition server_up (body : result pyval) (r : result response) : env :=
  {| ping := Ok (answer 200 PyNone);
     request_json := body;
     backend := fun _ => r;
     clock := quarter_clock |}.

Definition features : pyval :=
  PyDict [("total_sqft"%string, PyFloat 1000); ("bath"%string, PyFloat 2);
          ("bhk"%string, PyFloat 3)].

(** A wall clock that is set back by a second between its first two
    readings. *)
Definition clock_set_back (n : nat) : Q :=
  match n with
  | O => 10
  | S _ => 9
  end.

(** The model server is up and answers every post with [r], while the
    wall clock is set back. *)
Definition server_up_clock_set_back (body : result pyval) (r : result response) : env :=
  {| ping := Ok (answer 200 PyNone);
     request_json := body;
     backend := fun _ => r;
     clock := clock_set_back |}.

(** The ping fails before any request is sent, with an exception that
    is not one of [requests]. *)
Definition ping_crashes (body : result pyval) : env :=
  {| ping := Raise (OtherException "LocationParseError: Failed to parse");
     request_json := body;
     backend := fun _ => Raise (RequestException "Connection refused");
     clock := quarter_clock |}.

(** A 200 answer whose body is not JSON: [response.json()] raises the
    [JSONDecodeError] of [requests], a [RequestException]. *)
Definition undecodable_answer : response :=
  {| status_code := 200;
     text := "<html>ok</html>";
     json := Raise (RequestException "Expecting value: line 1 column 1 (char 0)") |}.

End InferenceSpec.

(** * Vocabulary of further properties of the proxy *)

Module InferenceAppSpec.
Import Inference InferenceSpec InferenceApp.

(** The counter counts the observations of the histogram, and the
    reachability gauge holds 0 or 1. *)
Definition registry_consistent (w : world) : Prop :=
  PREDICTIONS_TOTAL w = N.of_nat (length (PREDICTION_DURATION_SECONDS w))
  /\ (MLFLOW_SERVE_STATUS w = 0 \/ MLFLOW_SERVE_STATUS w = 1).

(** Every counted prediction was posted, and every post was preceded
    by a ping of its own. *)
Definition trace_consistent (w : world) : Prop :=
  (N.to_nat (PREDICTIONS_TOTAL w) <= count_posts (outbound w))%nat
  /\ (count_posts (outbound w) <= count_pings (outbound w))%nat.

(** The clock of a request does not run backwards. *)
Definition clock_monotone (e : env) : Prop :=
  forall n, clock e n <= clock e (S n).

(** The number of [POST /predict] requests among those served. *)
Definition count_predicts (reqs : list (route * env)) : nat :=
  length (filter (fun re => match fst re with Predict => true | _ => false end) reqs).


End InferenceAppSpec.


(** * Properties of the proxy *)

Module InferenceProofs.
Import Inference InferenceSpec.

Ltac run :=
  unfold predict, metrics, health_check, check_mlflow_serve_health,
    requests_get_ping, requests_post, response_json, raise_for_status,
    generate_latest, PREDICTIONS_TOTAL_inc,
    PREDICTION_DURATION_SECONDS_observe, MLFLOW_SERVE_STATUS_set, emit,
    time_time, try_except, bind, ret, raise, ask, gets, modify;
  cbn [fst snd negb PREDICTIONS_TOTAL PREDICTION_DURATION_SECONDS
       MLFLOW_SERVE_STATUS outbound clock_reads].

(** What one health check does, by cases on the answer to the ping. *)
Lemma check_health_cases (e : env) (w : world) :
  check_mlflow_serve_health e w =
  match ping e with
  | Ok r =>
      if (status_code r =? 200)%Z then (Ok true, pinged w 1)
      else (Ok false, pinged w 0)
  | Raise x =>
      if is_RequestException x then (Ok false, pinged w 0)
      else (Raise x, pinged w (MLFLOW_SERVE_STATUS w))
  end.
Proof.
  run. destruct (ping e) as [r | x].
  - destruct (status_code r =? 200)%Z; reflexivity.
  - destruct (is_RequestException x); reflexivity.
Qed.

(** A health check that returns leaves its answer in the gauge and
    touches nothing else but the trace. *)
Lemma check_health_returns (e : env) (w : world) (b : bool) (w' : world) :
  check_mlflow_serve_health e w = (Ok b, w') ->
  w' = pinged w (if b then 1 else 0).
Proof.
  rewrite check_health_cases.
  destruct (ping e) as [r | x].
  - destruct (status_code r =? 200)%Z; intros H; inversion H; reflexivity.
  - destruct (is_RequestException x); intros H; inversion H; reflexivity.
Qed.

Lemma check_health_true_iff (e : env) (w : world) (b : bool) (w' : world) :
  check_mlflow_serve_health e w = (Ok b, w') ->
  (b = true <-> responds_200 (ping e)).
Proof.
  rewrite check_health_cases. unfold responds_200.
  destruct (ping e) as [r | x].
  - destruct (status_code r =? 200)%Z eqn:Hs; intros H; inversion H; subst.
    + apply Z.eqb_eq in Hs. split; [intros _; eauto | reflexivity].
    + apply Z.eqb_neq in Hs. split; [discriminate |].
      intros [r' [Hr Hc]]. inversion Hr; subst. contradiction.
  - destruct (is_RequestException x); intros H; inversion H; subst.
    split; [discriminate | intros [r' [Hr _]]; discriminate].
Qed.

Lemma check_health_total (e : env) (w : world) :
  requests_contract (ping e) ->
  exists b w', check_mlflow_serve_health e w = (Ok b, w').
Proof.
  rewrite check_health_cases. unfold requests_contract.
  destruct (ping e) as [r | x].
  - intros _. destruct (status_code r =? 200)%Z; eauto.
  - intros ->. eauto.
Qed.

(** The state of [predict] when the health check has answered [b]. *)
Lemma predict_after_check (e : env) (w : world) (b : bool) (w1 : world) :
  check_mlflow_serve_health e w = (Ok b, w1) ->
  predict e w =
  if b then
    (start_time <- time_time ;;
     try_except
       (data <- ask request_json ;;
        if negb (truthy data) then
          ret (jsonify (error_dict "Invalid JSON input"), 400%Z)
        else
          response <- requests_post data ;;
          raise_for_status response ;;
          prediction_result <- response_json response ;;
          PREDICTIONS_TOTAL_inc ;;
          end_time <- time_time ;;
          PREDICTION_DURATION_SECONDS_observe (end_time - start_time) ;;
          ret (jsonify prediction_result, 200%Z))
       (fun x =>
          match x with
          | HTTPError code txt =>
              ret (jsonify (error_dict ("Error from model serve: " ++ txt)), code)
          | RequestException _ =>
              ret (jsonify (error_dict "Failed to connect to MLflow model serve endpoint."), 503%Z)
          | _ =>
              ret (jsonify (error_dict (str_exn x)), 500%Z)
          end))%py e w1
  else
    (Ok (jsonify (error_dict "MLflow model serve endpoint is unreachable or unhealthy."), 503%Z), w1).
Proof.
  intros H. unfold predict at 1. unfold bind at 1. rewrite H.
  destruct b; reflexivity.
Qed.

(** C7, as the code has it.  Whenever [check_mlflow_serve_health]
    returns, it returns [True] exactly when the ping was answered with
    status 200, it has stored its boolean result in the reachability
    gauge, and [/health] answers 200 on [True] and 503 on [False].  It
    returns whenever the ping is answered or fails inside [requests]
    (connection error, timeout).  An exception from outside [requests]
    is not caught: it reaches the caller and the gauge keeps what it
    held. *)
Theorem check_health_returns_or_propagates (e : env) (w : world) :
  (forall b w',
     check_mlflow_serve_health e w = (Ok b, w') ->
     (b = true <-> responds_200 (ping e))
     /\ MLFLOW_SERVE_STATUS w' = (if b then 1 else 0)
     /\ outbound w' = outbound w ++ [GET_ping]
     /\ health_check e w =
        (Ok (if b
             then (Plain "MLflow model serve endpoint is reachable", 200%Z)
             else (Plain "MLflow model serve endpoint is unreachable", 503%Z)),
         w'))
  /\ (requests_contract (ping e) ->
      exists b w', check_mlflow_serve_health e w = (Ok b, w'))
  /\ (forall x,
        ping e = Raise x ->
        is_RequestException x = false ->
        check_mlflow_serve_health e w = (Raise x, pinged w (MLFLOW_SERVE_STATUS w))
        /\ fst (health_check e w) = Raise x).
Proof.
  split; [| split].
  - intros b w' H.
    split; [exact (check_health_true_iff e w H) |].
    pose proof (check_health_returns e w H) as Hw. subst w'.
    split; [reflexivity |]. split; [reflexivity |].
    unfold health_check, bind. rewrite H. destruct b; reflexivity.
  - exact (check_health_total e w).
  - intros x Hp Hx.
    assert (H : check_mlflow_serve_health e w =
                (Raise x, pinged w (MLFLOW_SERVE_STATUS w)))
      by (rewrite check_health_cases, Hp, Hx; reflexivity).
    split; [exact H |].
    unfold health_check, bind. rewrite H. reflexivity.
Qed.

(** C7 fails as stated: the ping raises an exception that is not one
    of [requests]; the health check raises it to its caller, [/health]
    with it, and the gauge still holds the 1 of an earlier check. *)
Lemma check_health_raises_foreign_exception :
  let e := ping_crashes (Ok features) in
  let w := pinged fresh 1 in
  fst (check_mlflow_serve_health e w)
    = Raise (OtherException "LocationParseError: Failed to parse")
  /\ MLFLOW_SERVE_STATUS (snd (check_mlflow_serve_health e w)) = 1
  /\ fst (health_check e w)
     = Raise (OtherException "LocationParseError: Failed to parse").
Proof.
  cbv zeta. split; [reflexivity |]. split; reflexivity.
Qed.

(** An exception from outside [requests] is not caught by the health
    check. *)
Lemma check_health_propagates_foreign (e : env) (w : world) (x : exn) :
  ping e = Raise x -> is_RequestException x = false ->
  fst (check_mlflow_serve_health e w) = Raise x.
Proof.
  intros Hp Hx. rewrite check_health_cases, Hp, Hx. reflexivity.
Qed.



(** C2.  When the health check reports the backend unreachable,
    [predict] answers 503, sends no post to the backend, and leaves the
    counter and the histogram as they were. *)
Theorem predict_unhealthy_is_503 (e : env) (w : world) :
  fst (check_mlflow_serve_health e w) = Ok false ->
  exists w',
    predict e w =
      (Ok (jsonify (error_dict "MLflow model serve endpoint is unreachable or unhealthy."),
           503%Z), w')
    /\ outbound w' = outbound w ++ [GET_ping]
    /\ count_posts (outbound w') = count_posts (outbound w)
    /\ PREDICTIONS_TOTAL w' = PREDICTIONS_TOTAL w
    /\ PREDICTION_DURATION_SECONDS w' = PREDICTION_DURATION_SECONDS w.
Proof.
  intros H.
  destruct (check_mlflow_serve_health e w) as [rb w1] eqn:Hh.
  cbn in H. subst rb.
  exists w1. rewrite (predict_after_check e w Hh).
  pose proof (check_health_returns e w Hh) as Hw. subst w1.
  split; [reflexivity |]. split; [reflexivity |].
  split; [| split; reflexivity].
  unfold count_posts. cbn [outbound pinged].
  rewrite filter_app, length_app. cbn. lia.
Qed.

Lemma predict_unhealthy_is_503_witness :
  fst (check_mlflow_serve_health (server_down (Ok features)) fresh) = Ok false
  /\ exists w',
       predict (server_down (Ok features)) fresh =
         (Ok (jsonify (error_dict "MLflow model serve endpoint is unreachable or unhealthy."),
              503%Z), w')
       /\ outbound w' = [GET_ping]
       /\ PREDICTIONS_TOTAL w' = 0%N
       /\ PREDICTION_DURATION_SECONDS w' = [].
Proof.
  split; [reflexivity |].
  destruct (predict_unhealthy_is_503 (server_down (Ok features)) fresh eq_refl)
    as [w' [Hp [Ho [_ [Hc Hd]]]]].
  exists w'. auto.
Defined.

(** Unfold [predict] past a health check that answered [True] and a
    body that is present and not empty. *)
Ltac forward_step e w Hh Hj Ht :=
  rewrite (predict_after_check e w Hh);
  pose proof (check_health_returns e w Hh); subst;
  run; rewrite Hj; cbn [negb]; rewrite Ht; cbn [negb].

(** C3, as the code has it.  After a forward that succeeded the
    counter is one higher and the histogram has exactly one more
    observation, the second reading of the clock minus the first; that
    observation is 0 or more exactly when the second reading is not
    earlier than the first.  After a forward that failed, by whatever
    exception, the counter and the histogram are as before. *)
Theorem predict_counts_and_times_forwards
    (e : env) (w w1 : world) (data : pyval) :
  check_mlflow_serve_health e w = (Ok true, w1) ->
  request_json e = Ok data ->
  truthy data = true ->
  let w' := snd (predict e w) in
  let start_time := clock e (clock_reads w) in
  let end_time := clock e (S (clock_reads w)) in
  match forward_outcome e data with
  | Ok _ =>
      PREDICTIONS_TOTAL w' = (PREDICTIONS_TOTAL w + 1)%N
      /\ PREDICTION_DURATION_SECONDS w' =
         PREDICTION_DURATION_SECONDS w ++ [end_time - start_time]
      /\ (0 <= end_time - start_time <-> start_time <= end_time)
  | Raise _ =>
      PREDICTIONS_TOTAL w' = PREDICTIONS_TOTAL w
      /\ PREDICTION_DURATION_SECONDS w' = PREDICTION_DURATION_SECONDS w
  end.
Proof.
  intros Hh Hj Ht. cbv zeta. unfold forward_outcome.
  forward_step e w Hh Hj Ht.
  destruct (backend e data) as [r | x].
  - destruct ((400 <=? status_code r) && (status_code r <? 600))%Z.
    + cbn. split; reflexivity.
    + destruct (json r) as [v | x]; cbn.
      * split; [reflexivity |]. split; [reflexivity |].
        split; intros H.
        -- apply (proj2 (Qle_minus_iff _ _)). exact H.
        -- apply (proj1 (Qle_minus_iff _ _)). exact H.
      * destruct x; cbn; split; reflexivity.
  - destruct x; cbn; split; reflexivity.
Qed.

Lemma quarter_clock_monotone (n : nat) : quarter_clock n <= quarter_clock (S n).
Proof.
  unfold quarter_clock. apply Qmult_le_compat_r; [| discriminate].
  rewrite <- Zle_Qle. lia.
Qed.

Lemma predict_counts_and_times_forwards_witness :
  let e := server_up (Ok features) (Ok (answer 200 (PyList [PyFloat 7.2]))) in
  forward_outcome e features = Ok (PyList [PyFloat 7.2])
  /\ PREDICTIONS_TOTAL (snd (predict e fresh)) = 1%N
  /\ PREDICTION_DURATION_SECONDS (snd (predict e fresh))
     = [quarter_clock 1 - quarter_clock 0]
  /\ 0 <= quarter_clock 1 - quarter_clock 0.
Proof.
  cbv zeta. split; [reflexivity |].
  destruct (predict_counts_and_times_forwards
              (server_up (Ok features) (Ok (answer 200 (PyList [PyFloat 7.2]))))
              fresh (data := features) eq_refl eq_refl eq_refl)
    as [Hn [Hd Hle]].
  split; [exact Hn |]. split; [exact Hd |].
  apply Hle. apply quarter_clock_monotone.
Defined.

(** C3 fails as stated: the forward succeeds while the wall clock is
    set back between the two readings, and the one observation that the
    histogram receives is negative. *)
Lemma predict_observes_negative_duration :
  let e := server_up_clock_set_back (Ok features)
                                    (Ok (answer 200 (PyList [PyFloat 7.2]))) in
  forward_outcome e features = Ok (PyList [PyFloat 7.2])
  /\ PREDICTIONS_TOTAL (snd (predict e fresh)) = 1%N
  /\ PREDICTION_DURATION_SECONDS (snd (predict e fresh)) = [9 - 10]
  /\ ~ (0 <= 9 - 10).
Proof.
  cbv zeta. split; [reflexivity |]. split; [reflexivity |].
  split; [reflexivity |]. intros H. apply H. reflexivity.
Qed.

(** The three handlers of [predict] on the failures they were written
    for.  A post that fails at the connection level is answered 503 with
    a fixed body; a post that the backend answers with a 4xx or 5xx
    status is answered with that status and the text of the backend in
    the body; a forward that fails with an exception outside [requests]
    is answered 500.  The fixed body of the first case is never the body
    of the second. *)
Lemma predict_maps_forward_errors
    (e : env) (w w1 : world) (data : pyval) :
  check_mlflow_serve_health e w = (Ok true, w1) ->
  request_json e = Ok data ->
  truthy data = true ->
  (forall m, backend e data = Raise (RequestException m) ->
     fst (predict e w) =
     Ok (jsonify (error_dict "Failed to connect to MLflow model serve endpoint."),
         503%Z))
  /\ (forall r, backend e data = Ok r ->
        (400 <= status_code r < 600)%Z ->
        fst (predict e w) =
        Ok (jsonify (error_dict ("Error from model serve: " ++ text r)),
            status_code r))
  /\ (forall x, forward_outcome e data = Raise x ->
        is_RequestException x = false ->
        fst (predict e w) = Ok (jsonify (error_dict (str_exn x)), 500%Z))
  /\ (forall txt,
        error_dict "Failed to connect to MLflow model serve endpoint."
        <> error_dict ("Error from model serve: " ++ txt)).
Proof.
  intros Hh Hj Ht. split; [| split; [| split]].
  - intros m Hb. forward_step e w Hh Hj Ht. rewrite Hb. reflexivity.
  - intros r Hb [Hlo Hhi]. forward_step e w Hh Hj Ht. rewrite Hb. cbn.
    apply Z.leb_le in Hlo. apply Z.ltb_lt in Hhi. rewrite Hlo, Hhi. reflexivity.
  - intros x Hf Hx. unfold forward_outcome in Hf.
    forward_step e w Hh Hj Ht.
    destruct (backend e data) as [r | y].
    + cbn. destruct ((400 <=? status_code r) && (status_code r <? 600))%Z.
      * inversion Hf; subst. discriminate Hx.
      * rewrite Hf. destruct x; try discriminate Hx; reflexivity.
    + inversion Hf; subst. destruct x; try discriminate Hx; reflexivity.
  - intros txt H. discriminate H.
Qed.

Lemma predict_maps_forward_errors_witness :
  let r := {| status_code := 422; text := "bad schema"; json := Ok PyNone |} in
  fst (predict (server_up (Ok features) (Ok r)) fresh) =
  Ok (jsonify (error_dict "Error from model serve: bad schema"), 422%Z).
Proof.
  cbv zeta.
  refine (proj1 (proj2 (predict_maps_forward_errors
            (server_up (Ok features)
               (Ok {| status_code := 422; text := "bad schema"; json := Ok PyNone |}))
            fresh (data := features) eq_refl eq_refl eq_refl)) _ eq_refl _).
  cbn. lia.
Defined.

(** C4 on the code.  The backend answers the post with status 200 and
    a body that is not JSON.  The forward fails in [response.json()],
    which is neither a connection failure nor a backend HTTP error, yet
    the exception is one of [requests], the handler written for
    connection failures catches it, and the client is answered 503
    "Failed to connect" in place of 500. *)
Theorem predict_undecodable_answer_is_503 :
  let e := server_up (Ok features) (Ok undecodable_answer) in
  backend e features = Ok undecodable_answer
  /\ status_code undecodable_answer = 200%Z
  /\ forward_outcome e features
     = Raise (RequestException "Expecting value: line 1 column 1 (char 0)")
  /\ fst (predict e fresh)
     = Ok (jsonify (error_dict "Failed to connect to MLflow model serve endpoint."),
           503%Z)
  /\ outbound (snd (predict e fresh)) = [GET_ping; POST_predict features].
Proof.
  cbv zeta. split; [reflexivity |]. split; [reflexivity |].
  split; [reflexivity |]. split; reflexivity.
Qed.

(** C5, as the code has it.  After a forward that succeeded the client
    receives the decoded answer of the backend as it is, with no
    normalisation, and always with status 200. *)
Theorem predict_returns_decoded_answer
    (e : env) (w w1 : world) (data v : pyval) :
  check_mlflow_serve_health e w = (Ok true, w1) ->
  request_json e = Ok data ->
  truthy data = true ->
  forward_outcome e data = Ok v ->
  fst (predict e w) = Ok (jsonify v, 200%Z).
Proof.
  intros Hh Hj Ht Hf. unfold forward_outcome in Hf.
  forward_step e w Hh Hj Ht.
  destruct (backend e data) as [r | x]; [| discriminate Hf].
  cbn. destruct ((400 <=? status_code r) && (status_code r <? 600))%Z;
    [discriminate Hf |].
  rewrite Hf. reflexivity.
Qed.

Lemma predict_returns_decoded_answer_witness :
  let answer_55 := PyDict [("predictions"%string, PyList [PyFloat 55.4])] in
  fst (predict (server_up (Ok features) (Ok (answer 200 answer_55))) fresh) =
  Ok (jsonify answer_55, 200%Z).
Proof.
  cbv zeta.
  exact (predict_returns_decoded_answer
           (server_up (Ok features)
              (Ok (answer 200 (PyDict [("predictions"%string, PyList [PyFloat 55.4])]))))
           fresh (data := features) eq_refl eq_refl eq_refl eq_refl).
Defined.

(** C5 fails as stated: the backend answers 201 and the forward
    succeeds, yet the client is answered 200. *)
Lemma predict_created_becomes_ok :
  let r := answer 201 (PyList [PyFloat 7.2]) in
  let e := server_up (Ok features) (Ok r) in
  forward_outcome e features = Ok (PyList [PyFloat 7.2])
  /\ exists resp,
       fst (predict e fresh) = Ok resp
       /\ fst resp = jsonify (PyList [PyFloat 7.2])
       /\ snd resp <> status_code r.
Proof.
  cbv zeta. split; [reflexivity |].
  eexists. split; [reflexivity |]. split; [reflexivity |].
  cbn. discriminate.
Qed.

(** C1, as the code has it.  [predict] runs the health check first,
    whatever the body: the ping is the first outbound call of every
    request.  When the health check answers [True] and [request.json]
    evaluates to a value that [not data] accepts, the answer is 400, the
    ping is the only outbound call and the counter and the histogram are
    as before.  When the health check answers [False] the answer is 503,
    whatever the body. *)
Theorem predict_checks_health_first (e : env) (w : world) :
  (exists rest, outbound (snd (predict e w)) = outbound w ++ GET_ping :: rest)
  /\ (forall w1 data,
        check_mlflow_serve_health e w = (Ok true, w1) ->
        request_json e = Ok data ->
        truthy data = false ->
        exists w',
          predict e w = (Ok (jsonify (error_dict "Invalid JSON input"), 400%Z), w')
          /\ outbound w' = outbound w ++ [GET_ping]
          /\ PREDICTIONS_TOTAL w' = PREDICTIONS_TOTAL w
          /\ PREDICTION_DURATION_SECONDS w' = PREDICTION_DURATION_SECONDS w)
  /\ (forall w1,
        check_mlflow_serve_health e w = (Ok false, w1) ->
        fst (predict e w) =
        Ok (jsonify (error_dict "MLflow model serve endpoint is unreachable or unhealthy."),
            503%Z)).
Proof.
  split; [| split].
  - destruct (check_mlflow_serve_health e w) as [[b | x] w1] eqn:Hh.
    + rewrite (predict_after_check e w Hh).
      pose proof (check_health_returns e w Hh); subst w1.
      destruct b; [| eexists; reflexivity].
      run. destruct (request_json e) as [data | x].
      * cbn [negb]. destruct (truthy data); cbn [negb].
        -- destruct (backend e data) as [r | x].
           ++ destruct ((400 <=? status_code r) && (status_code r <? 600))%Z.
              ** eexists. cbn. rewrite <- app_assoc. reflexivity.
              ** destruct (json r) as [v | x]; [| destruct x];
                   eexists; cbn; rewrite <- app_assoc; reflexivity.
           ++ destruct x; eexists; cbn; rewrite <- app_assoc; reflexivity.
        -- eexists. reflexivity.
      * destruct x; eexists; reflexivity.
    + unfold predict, bind. rewrite Hh. cbn [snd].
      rewrite check_health_cases in Hh.
      destruct (ping e) as [r | y].
      * destruct (status_code r =? 200)%Z; discriminate Hh.
      * destruct (is_RequestException y); [discriminate Hh |].
        inversion Hh; subst. eexists. reflexivity.
  - intros w1 data Hh Hj Ht.
    rewrite (predict_after_check e w Hh).
    pose proof (check_health_returns e w Hh); subst w1.
    run. rewrite Hj. cbn [negb]. rewrite Ht. cbn [negb].
    eexists. split; [reflexivity |]. split; [reflexivity |].
    split; reflexivity.
  - intros w1 Hh. rewrite (predict_after_check e w Hh). reflexivity.
Qed.

(** A body that Flask cannot parse makes [request.json] raise a
    werkzeug exception inside the [try] block; the last handler turns it
    into a 500. *)
Lemma predict_unparsable_body_is_500 (e : env) (w w1 : world) (x : exn) :
  check_mlflow_serve_health e w = (Ok true, w1) ->
  request_json e = Raise x ->
  is_RequestException x = false ->
  fst (predict e w) = Ok (jsonify (error_dict (str_exn x)), 500%Z).
Proof.
  intros Hh Hj Hx. rewrite (predict_after_check e w Hh).
  run. rewrite Hj. destruct x; try discriminate Hx; reflexivity.
Qed.

(** C1 fails as stated: an empty body while the model server is down
    is answered 503, not 400, and the health checker has been invoked. *)
Lemma predict_empty_body_pings :
  let e := server_down (Ok PyNone) in
  body_empty (request_json e)
  /\ exists resp,
       fst (predict e fresh) = Ok resp
       /\ snd resp = 503%Z
       /\ count_pings (outbound (snd (predict e fresh))) = 1%nat.
Proof.
  cbv zeta. split.
  - exists PyNone. split; reflexivity.
  - eexists. split; [reflexivity |]. split; reflexivity.
Qed.

End InferenceProofs.


(** * Properties of the sample probe *)

Module ExporterProofs.
Import Exporter ExporterSpec.

Section WithFloatParser.

Variable float_of_str : string -> option Q.

Local Abbreviation normalize := (normalize float_of_str).
Local Abbreviation probe := (get_sample_prediction_from_api float_of_str).
Local Abbreviation tick := (tick float_of_str).
Local Abbreviation main_loop := (main_loop float_of_str).

Ltac run :=
  unfold Exporter.tick, Exporter.get_sample_prediction_from_api,
    load_sample_data, requests_post, response_json, raise_for_status,
    LAST_PREDICTION_VALUE_set, LATENCY_EXPORTER_set,
    MLFLOW_SERVE_STATUS_EXPORTER_set, lift, emit, time_time, time_sleep,
    try_except, bind, ret, raise, ask, gets, modify;
  cbn [fst snd LAST_PREDICTION_VALUE LATENCY_EXPORTER
       MLFLOW_SERVE_STATUS_EXPORTER outbound clock_reads].

(** The built-ins raise built-in exceptions, never one of [requests]. *)
Lemma subscript0_raises (v : pyval) (x : exn) :
  subscript0 v = Raise x -> is_RequestException x = false.
Proof.
  destruct v as [| b | z | q | s | l | d]; cbn; try (intros H; inversion H; reflexivity).
  - destruct s; intros H; inversion H; reflexivity.
  - destruct l; intros H; inversion H; reflexivity.
Qed.

Lemma float_raises (v : pyval) (x : exn) :
  float float_of_str v = Raise x -> is_RequestException x = false.
Proof.
  destruct v as [| b | z | q | s | l | d]; cbn; try (intros H; inversion H; reflexivity).
  - destruct (Z.abs z <? int_too_large_for_float)%Z; intros H; inversion H; reflexivity.
  - destruct (float_of_str s); intros H; inversion H; reflexivity.
Qed.

Lemma getitem_raises (k : string) (v : pyval) (x : exn) :
  getitem k v = Raise x -> is_RequestException x = false.
Proof.
  destruct v as [| b | z | q | s | l | d]; cbn; try (intros H; inversion H; reflexivity).
  destruct (dict_get k d); intros H; inversion H; reflexivity.
Qed.

Lemma normalize_raises (v : pyval) (x : exn) :
  normalize v = Raise x -> is_RequestException x = false.
Proof.
  unfold Exporter.normalize.
  destruct (isinstance_list v).
  - apply subscript0_raises.
  - destruct (isinstance_dict v && contains "predictions" v).
    + destruct (getitem "predictions" v) as [p | y] eqn:Hg.
      * apply subscript0_raises.
      * intros H. inversion H; subst. exact (getitem_raises _ _ Hg).
    + destruct (float float_of_str v) as [q | y] eqn:Hf.
      * discriminate.
      * intros H. inversion H; subst. exact (float_raises _ Hf).
Qed.

(** The first [try] block never raises and changes nothing. *)
Lemma load_sample_data_cases (e : env) (w : world) :
  load_sample_data e w = (Ok (loaded_sample e), w).
Proof.
  unfold loaded_sample. run.
  destruct (path_exists e) as [[|] | x].
  - destruct (load e) as [s | x]; [reflexivity | destruct x; reflexivity].
  - reflexivity.
  - destruct x; reflexivity.
Qed.

(** The integers 0 and 1 convert to floats. *)
Lemma float_bit (b : bool) :
  float float_of_str (PyInt (if b then 1 else 0)) = Ok (if b then 1 else 0).
Proof. destruct b; reflexivity. Qed.

(** [get_sample_prediction_from_api] past its first [try] block. *)
Lemma probe_after_load (e : env) (w : world) :
  probe e w =
  match loaded_sample e with
  | None => (Ok (PyNone, PyNone), w)
  | Some sample_data =>
      (start_time <- time_time ;;
       try_except
         (let payload := PyDict [("inputs"%string, sample_data)] in
          response <- requests_post payload ;;
          raise_for_status response ;;
          prediction_value <- response_json response ;;
          now <- time_time ;;
          let latency_ms := ((now - start_time) * 1000)%Q in
          MLFLOW_SERVE_STATUS_EXPORTER_set float_of_str (PyInt 1) ;;
          prediction <- lift (normalize prediction_value) ;;
          ret (prediction, PyFloat latency_ms))
         (fun x =>
            if is_RequestException x then
              (MLFLOW_SERVE_STATUS_EXPORTER_set float_of_str (PyInt 0) ;;
               ret (PyNone, PyNone))
            else
              ret (PyNone, PyNone)))%py e w
  end.
Proof.
  unfold Exporter.get_sample_prediction_from_api, bind at 1.
  rewrite load_sample_data_cases.
  destruct (loaded_sample e); reflexivity.
Qed.

(** What [get_sample_prediction_from_api] returns and leaves behind, by
    cases on the outside world.  It never raises and never touches the
    prediction and latency gauges. *)
Lemma probe_cases (e : env) (w : world) :
  let r := probe e w in
  LAST_PREDICTION_VALUE (snd r) = LAST_PREDICTION_VALUE w
  /\ LATENCY_EXPORTER (snd r) = LATENCY_EXPORTER w
  /\ match loaded_sample e with
     | None => r = (Ok (PyNone, PyNone), w)
     | Some sample_data =>
         outbound (snd r) =
           outbound w ++ [POST_invocations (payload_of sample_data)]
         /\ match forward_outcome e (payload_of sample_data) with
            | Raise x =>
                fst r = Ok (PyNone, PyNone)
                /\ MLFLOW_SERVE_STATUS_EXPORTER (snd r) =
                   (if is_RequestException x then 0
                    else MLFLOW_SERVE_STATUS_EXPORTER w)
            | Ok v =>
                MLFLOW_SERVE_STATUS_EXPORTER (snd r) = 1
                /\ match normalize v with
                   | Ok p =>
                       fst r =
                       Ok (p, PyFloat ((clock e (S (clock_reads w))
                                        - clock e (clock_reads w)) * 1000))
                   | Raise _ => fst r = Ok (PyNone, PyNone)
                   end
            end
     end.
Proof.
  cbv zeta. rewrite probe_after_load.
  destruct (loaded_sample e) as [sample_data |]; [| cbn; auto].
  unfold forward_outcome, payload_of. run.
  pose proof (float_bit true) as F1. pose proof (float_bit false) as F0.
  cbv iota in F1, F0.
  destruct (backend e _) as [r | x].
  - destruct ((400 <=? status_code r) && (status_code r <? 600))%Z.
    + cbn [is_RequestException]. rewrite F0. cbn. auto.
    + destruct (json r) as [v | x].
      * rewrite F1.
        destruct (Exporter.normalize float_of_str v) as [p | x] eqn:Hn.
        -- cbn. auto.
        -- cbv beta iota. rewrite (normalize_raises _ Hn). cbn. auto.
      * destruct (is_RequestException x).
        -- rewrite F0. cbn. auto.
        -- cbn. auto.
  - destruct (is_RequestException x).
    + rewrite F0. cbn. auto.
    + cbn. auto.
Qed.

(** A tick whose probe returned no prediction ends there. *)
Lemma tick_without_prediction (e : env) (w w' : world) (latency : pyval) :
  probe e w = (Ok (PyNone, latency), w') ->
  tick e w = (Ok tt, w').
Proof.
  intros H. unfold Exporter.tick, bind at 1. rewrite H. reflexivity.
Qed.

(** A tick whose probe returned a float stores it and the latency. *)
Lemma tick_with_float_prediction (e : env) (w w' : world) (p l : Q) :
  probe e w = (Ok (PyFloat p, PyFloat l), w') ->
  tick e w =
  (Ok tt,
   {| LAST_PREDICTION_VALUE := p;
      LATENCY_EXPORTER := l;
      MLFLOW_SERVE_STATUS_EXPORTER := MLFLOW_SERVE_STATUS_EXPORTER w';
      outbound := outbound w';
      clock_reads := clock_reads w' |}).
Proof.
  intros H. unfold Exporter.tick, bind at 1. rewrite H. reflexivity.
Qed.

(** C6.  The decoded answer is normalised in this order: a list gives
    its element 0; else a dict with a ["predictions"] key gives element
    0 of the value under that key; else the answer itself converted by
    [float].  A shape that fits none of these makes the probe return no
    prediction, and the probe never raises.  [[7.2]],
    [{"predictions": [7.2]}] and [7.2] all normalise to [7.2]. *)
Theorem normalize_precedence_and_totality :
  (forall l,
     normalize (PyList l) =
     match l with
     | x :: _ => Ok x
     | [] => Raise (IndexError "list index out of range")
     end)
  /\ (forall d p,
        dict_get "predictions" d = Some p ->
        normalize (PyDict d) = subscript0 p)
  /\ (forall v,
        isinstance_list v = false ->
        isinstance_dict v && contains "predictions" v = false ->
        normalize v =
        match float float_of_str v with
        | Ok q => Ok (PyFloat q)
        | Raise x => Raise x
        end)
  /\ (forall e w, exists r, fst (probe e w) = Ok r)
  /\ (forall e w sample_data v,
        loaded_sample e = Some sample_data ->
        forward_outcome e (payload_of sample_data) = Ok v ->
        match normalize v with
        | Ok p => exists latency_ms, fst (probe e w) = Ok (p, PyFloat latency_ms)
        | Raise _ => fst (probe e w) = Ok (PyNone, PyNone)
        end)
  /\ normalize (PyList [PyFloat 7.2]) = Ok (PyFloat 7.2)
  /\ normalize (PyDict [("predictions"%string, PyList [PyFloat 7.2])])
     = Ok (PyFloat 7.2)
  /\ normalize (PyFloat 7.2) = Ok (PyFloat 7.2).
Proof.
  split; [| split; [| split; [| split; [| split]]]].
  - intros [| x l]; reflexivity.
  - intros d p Hd. unfold Exporter.normalize.
    cbn [isinstance_list isinstance_dict contains getitem andb].
    unfold dict_contains. rewrite Hd. reflexivity.
  - intros v Hl Hd. unfold Exporter.normalize. rewrite Hl, Hd. reflexivity.
  - intros e w. pose proof (probe_cases e w) as H. cbv zeta in H.
    destruct H as [_ [_ H]].
    destruct (loaded_sample e) as [sample_data |].
    + destruct H as [_ H].
      destruct (forward_outcome e (payload_of sample_data)) as [v | x].
      * destruct H as [_ H].
        destruct (Exporter.normalize float_of_str v); eauto.
      * destruct H as [H _]. eauto.
    + rewrite H. cbn. eauto.
  - intros e w sample_data v Hs Hf.
    pose proof (probe_cases e w) as H. cbv zeta in H.
    rewrite Hs, Hf in H. destruct H as [_ [_ [_ [_ H]]]].
    destruct (Exporter.normalize float_of_str v); eauto.
  - split; [reflexivity |]. split; reflexivity.
Qed.

(** C8, as the code has it.  After a tick whose probe returned no
    prediction, the prediction and latency gauges hold what they held
    before and the tick ends without an exception.  The reachability
    gauge is left as it was when the sample could not be loaded (no call
    is made then) or when the forward failed outside [requests]; it is 0
    when the forward raised inside [requests]; it is 1 when the backend
    answered and only the normalisation failed. *)
Theorem failed_tick_keeps_gauges (e : env) (w w' : world) (latency : pyval) :
  probe e w = (Ok (PyNone, latency), w') ->
  tick e w = (Ok tt, w')
  /\ LAST_PREDICTION_VALUE w' = LAST_PREDICTION_VALUE w
  /\ LATENCY_EXPORTER w' = LATENCY_EXPORTER w
  /\ match loaded_sample e with
     | None =>
         MLFLOW_SERVE_STATUS_EXPORTER w' = MLFLOW_SERVE_STATUS_EXPORTER w
         /\ outbound w' = outbound w
     | Some sample_data =>
         match forward_outcome e (payload_of sample_data) with
         | Raise x =>
             MLFLOW_SERVE_STATUS_EXPORTER w' =
             (if is_RequestException x then 0
              else MLFLOW_SERVE_STATUS_EXPORTER w)
         | Ok _ => MLFLOW_SERVE_STATUS_EXPORTER w' = 1
         end
     end.
Proof.
  intros H. split; [exact (tick_without_prediction e w H) |].
  pose proof (probe_cases e w) as Hc. cbv zeta in Hc. rewrite H in Hc.
  cbn [fst snd] in Hc. destruct Hc as [Hl [Ht Hc]].
  split; [exact Hl |]. split; [exact Ht |].
  destruct (loaded_sample e) as [sample_data |].
  - destruct Hc as [_ Hc].
    destruct (forward_outcome e (payload_of sample_data)) as [v | x].
    + exact (proj1 Hc).
    + exact (proj2 Hc).
  - inversion Hc; subst. split; reflexivity.
Qed.

End WithFloatParser.

Lemma failed_tick_keeps_gauges_witness :
  let e := file_missing (Ok (answer 200 (PyList [PyFloat 7.2]))) in
  exists w',
    tick no_str_is_a_float e after_success = (Ok tt, w')
    /\ LAST_PREDICTION_VALUE w' = 55.4
    /\ LATENCY_EXPORTER w' = 250
    /\ MLFLOW_SERVE_STATUS_EXPORTER w' = 1.
Proof.
  cbv zeta. exists after_success.
  destruct (failed_tick_keeps_gauges no_str_is_a_float
              (file_missing (Ok (answer 200 (PyList [PyFloat 7.2]))))
              after_success (w' := after_success) (latency := PyNone) eq_refl)
    as [Ht [Hl [Hy Hs]]].
  split; [exact Ht |]. split; [exact Hl |]. split; [exact Hy |].
  exact (proj1 Hs).
Defined.

(** C8 fails as stated.  The backend answers [[]]: the tick fails in
    the normalisation, yet the reachability gauge is 1.  The sample file
    is missing after a tick that succeeded: the tick fails in the load,
    and the reachability gauge still holds 1. *)
Lemma failed_tick_leaves_backend_reachable :
  let empty_answer := probe_answered (Ok (answer 200 (PyList []))) in
  let no_file := file_missing (Ok (answer 200 (PyList [PyFloat 7.2]))) in
  fst (get_sample_prediction_from_api no_str_is_a_float empty_answer initial)
    = Ok (PyNone, PyNone)
  /\ MLFLOW_SERVE_STATUS_EXPORTER (snd (tick no_str_is_a_float empty_answer initial)) = 1
  /\ fst (get_sample_prediction_from_api no_str_is_a_float no_file after_success)
     = Ok (PyNone, PyNone)
  /\ MLFLOW_SERVE_STATUS_EXPORTER (snd (tick no_str_is_a_float no_file after_success)) = 1
  /\ ~ (1 == 0)%Q.
Proof.
  cbv zeta. repeat (split; [reflexivity |]). discriminate.
Qed.

(** C9 on the code.  The backend answers the probe with [[[7.2]]]: the
    probe returns the list [[7.2]] as prediction, [Gauge.set] raises
    [TypeError] on it, nothing in the loop body catches that, and the
    loop ends before any later tick runs. *)
Theorem tick_raises_on_nested_answer :
  let e := probe_answered (Ok (answer 200 (PyList [PyList [PyFloat 7.2]]))) in
  fst (get_sample_prediction_from_api no_str_is_a_float e initial)
    = Ok (PyList [PyFloat 7.2], PyFloat ((quarter_clock 1 - quarter_clock 0) * 1000))
  /\ fst (tick no_str_is_a_float e initial)
     = Raise (TypeError "float() argument must be a string or a real number")
  /\ forall later,
       fst (main_loop no_str_is_a_float (e :: later) initial)
       = Raise (TypeError "float() argument must be a string or a real number")
       /\ length (outbound (snd (main_loop no_str_is_a_float (e :: later) initial)))
          = 1%nat.
Proof.
  cbv zeta. split; [reflexivity |]. split; [reflexivity |].
  intros later. split; reflexivity.
Qed.

End ExporterProofs.


(** * Further properties of the proxy *)

Module InferenceExtra.
Import Inference InferenceSpec InferenceApp InferenceAppSpec InferenceProofs.

Ltac leaf posts obs :=
  exists posts, obs;
  cbn [fst snd PREDICTIONS_TOTAL PREDICTION_DURATION_SECONDS
       MLFLOW_SERVE_STATUS outbound clock_reads pinged length N.of_nat];
  rewrite <- ?app_assoc, ?app_nil_r, ?N.add_0_r;
  repeat (split; [solve [reflexivity | auto] |]).

(** Everything one run of [predict] can do to the registry and to the
    trace: a ping, then at most one post, of the parsed body, then at
    most one observation, counted once. *)
Lemma predict_effects (e : env) (w : world) :
  exists posts obs,
    outbound (snd (predict e w)) = outbound w ++ GET_ping :: posts
    /\ PREDICTION_DURATION_SECONDS (snd (predict e w)) =
       PREDICTION_DURATION_SECONDS w ++ obs
    /\ PREDICTIONS_TOTAL (snd (predict e w)) =
       (PREDICTIONS_TOTAL w + N.of_nat (length obs))%N
    /\ (MLFLOW_SERVE_STATUS (snd (predict e w)) = 0
        \/ MLFLOW_SERVE_STATUS (snd (predict e w)) = 1
        \/ (MLFLOW_SERVE_STATUS (snd (predict e w)) = MLFLOW_SERVE_STATUS w
            /\ exists x, fst (predict e w) = Raise x))
    /\ ((posts = [] /\ obs = [])
        \/ exists data,
             request_json e = Ok data /\ truthy data = true
             /\ posts = [POST_predict data]
             /\ (obs = []
                 \/ obs = [clock e (S (clock_reads w)) - clock e (clock_reads w)])).
Proof.
  destruct (check_mlflow_serve_health e w) as [[b | x] w1] eqn:Hh.
  - rewrite (predict_after_check e w Hh).
    pose proof (check_health_returns e w Hh); subst w1.
    destruct b; [| leaf (@nil event) (@nil Q); auto].
    run. destruct (request_json e) as [data | x].
    + cbn [negb]. destruct (truthy data) eqn:Ht; cbn [negb].
      * destruct (backend e data) as [r | x].
        -- destruct ((400 <=? status_code r) && (status_code r <? 600))%Z.
           ++ leaf [POST_predict data] (@nil Q). right. exists data. auto.
           ++ destruct (json r) as [v | x].
              ** leaf [POST_predict data]
                   [clock e (S (clock_reads w)) - clock e (clock_reads w)].
                 right. exists data. auto.
              ** destruct x; leaf [POST_predict data] (@nil Q);
                   right; exists data; auto.
        -- destruct x; leaf [POST_predict data] (@nil Q);
             right; exists data; auto.
      * leaf (@nil event) (@nil Q). auto.
    + destruct x; leaf (@nil event) (@nil Q); auto.
  - unfold predict, bind. rewrite Hh.
    rewrite check_health_cases in Hh.
    destruct (ping e) as [r | y].
    + destruct (status_code r =? 200)%Z; discriminate Hh.
    + destruct (is_RequestException y); [discriminate Hh |].
      inversion Hh; subst. leaf (@nil event) (@nil Q).
      split; [right; right; split; [reflexivity | eauto] | auto].
Qed.

Lemma handle_world (r : route) (e : env) (w : world) :
  snd (handle r e w) = snd (view r e w).
Proof.
  unfold handle. destruct (view r e w) as [[resp | x] w']; reflexivity.
Qed.

(** [/metrics] and [/health] leave the registry as the health check
    left it. *)
Lemma scrape_world (e : env) (w : world) :
  snd (metrics e w) = snd (check_mlflow_serve_health e w)
  /\ snd (health_check e w) = snd (check_mlflow_serve_health e w).
Proof.
  unfold metrics, health_check, generate_latest, gets, ret, bind.
  destruct (check_mlflow_serve_health e w) as [[[|] | x] w1]; split; reflexivity.
Qed.

Lemma check_health_world (e : env) (w : world) :
  exists v,
    snd (check_mlflow_serve_health e w) = pinged w v
    /\ (v = 0 \/ v = 1 \/ v = MLFLOW_SERVE_STATUS w).
Proof.
  rewrite check_health_cases. destruct (ping e) as [r | x].
  - destruct (status_code r =? 200)%Z; eexists; split; [reflexivity | auto | reflexivity | auto].
  - destruct (is_RequestException x); eexists; split; [reflexivity | auto | reflexivity | auto].
Qed.

(** The effects of one request, whatever its route, in the form the
    invariants need. *)
Lemma handle_effects (r : route) (e : env) (w : world) :
  exists posts obs,
    outbound (snd (handle r e w)) = outbound w ++ GET_ping :: posts
    /\ PREDICTION_DURATION_SECONDS (snd (handle r e w)) =
       PREDICTION_DURATION_SECONDS w ++ obs
    /\ PREDICTIONS_TOTAL (snd (handle r e w)) =
       (PREDICTIONS_TOTAL w + N.of_nat (length obs))%N
    /\ (MLFLOW_SERVE_STATUS (snd (handle r e w)) = 0
        \/ MLFLOW_SERVE_STATUS (snd (handle r e w)) = 1
        \/ MLFLOW_SERVE_STATUS (snd (handle r e w)) = MLFLOW_SERVE_STATUS w)
    /\ count_pings (GET_ping :: posts) = 1%nat
    /\ count_posts (GET_ping :: posts) = length posts
    /\ (length obs <= length posts <= 1)%nat
    /\ (r <> Predict -> posts = [])
    /\ (clock_monotone e -> Forall (fun d => 0 <= d) obs).
Proof.
  rewrite handle_world. destruct r; cbn [view].
  - destruct (predict_effects e w) as [posts [obs [Ho [Hd [Hc [Hs Hk]]]]]].
    exists posts, obs. rewrite Ho, Hd, Hc.
    split; [reflexivity |]. split; [reflexivity |]. split; [reflexivity |].
    split; [tauto |].
    assert (Hp : Predict <> Predict -> posts = [])
      by (intros Hm; exfalso; apply Hm; reflexivity).
    destruct Hk as [[-> ->] | [data [_ [_ [-> Hobs]]]]].
    + split; [reflexivity |]. split; [reflexivity |]. split; [cbn; lia |].
      split; [exact Hp |]. intros _. constructor.
    + split; [reflexivity |]. split; [reflexivity |].
      destruct Hobs as [-> | ->].
      * split; [cbn; lia |]. split; [exact Hp |]. intros _. constructor.
      * split; [cbn; lia |]. split; [exact Hp |].
        intros Hm. constructor; [| constructor].
        apply (proj1 (Qle_minus_iff _ _)). apply Hm.
  - rewrite (proj1 (scrape_world e w)).
    destruct (check_health_world e w) as [v [-> Hv]].
    exists [], []. cbn [pinged outbound PREDICTION_DURATION_SECONDS
                       PREDICTIONS_TOTAL MLFLOW_SERVE_STATUS length N.of_nat].
    rewrite app_nil_r, N.add_0_r.
    split; [reflexivity |]. split; [reflexivity |]. split; [reflexivity |].
    split; [exact Hv |]. split; [reflexivity |]. split; [reflexivity |].
    split; [lia |]. split; [reflexivity |]. intros _. constructor.
  - rewrite (proj2 (scrape_world e w)).
    destruct (check_health_world e w) as [v [-> Hv]].
    exists [], []. cbn [pinged outbound PREDICTION_DURATION_SECONDS
                       PREDICTIONS_TOTAL MLFLOW_SERVE_STATUS length N.of_nat].
    rewrite app_nil_r, N.add_0_r.
    split; [reflexivity |]. split; [reflexivity |]. split; [reflexivity |].
    split; [exact Hv |]. split; [reflexivity |]. split; [reflexivity |].
    split; [lia |]. split; [reflexivity |]. intros _. constructor.
Qed.

Lemma serve_cons (r : route) (e : env) (rest : list (route * env)) (w : world) :
  snd (serve ((r, e) :: rest) w) = snd (serve rest (snd (handle r e w))).
Proof.
  cbn [serve]. destruct (handle r e w) as [resp w1]. cbn [snd].
  destruct (serve rest w1); reflexivity.
Qed.

Lemma count_pings_app (a b : list event) :
  count_pings (a ++ b) = (count_pings a + count_pings b)%nat.
Proof. unfold count_pings. rewrite filter_app, length_app. reflexivity. Qed.

Lemma count_posts_app (a b : list event) :
  count_posts (a ++ b) = (count_posts a + count_posts b)%nat.
Proof. unfold count_posts. rewrite filter_app, length_app. reflexivity. Qed.

Lemma registry_consistent_step (r : route) (e : env) (w : world) :
  registry_consistent w -> registry_consistent (snd (handle r e w)).
Proof.
  intros [Hc Hs].
  destruct (handle_effects r e w) as [posts [obs [_ [Hd [Hn [Hg _]]]]]].
  split.
  - rewrite Hn, Hd, Hc, length_app. lia.
  - destruct Hg as [H | [H | H]]; [auto | auto | rewrite H; exact Hs].
Qed.

Lemma trace_consistent_step (r : route) (e : env) (w : world) :
  trace_consistent w -> trace_consistent (snd (handle r e w)).
Proof.
  intros [Hc Hp].
  destruct (handle_effects r e w)
    as [posts [obs [Ho [_ [Hn [_ [Hpi [Hpo [Hl _]]]]]]]]].
  unfold trace_consistent.
  rewrite Ho, Hn, count_posts_app, count_pings_app, Hpi, Hpo. lia.
Qed.

(** X1.  Whatever requests the application serves after it starts, and
    whatever the outside world answers, the counter equals the number of
    observations in the histogram and the reachability gauge holds 0 or
    1. *)
Theorem serve_keeps_registry_consistent (reqs : list (route * env)) :
  registry_consistent (snd (serve reqs fresh)).
Proof.
  assert (H : registry_consistent fresh) by (split; [reflexivity | auto]).
  revert H. generalize fresh. induction reqs as [| [r e] rest IH]; intros w H.
  - exact H.
  - rewrite serve_cons. apply IH. apply registry_consistent_step. exact H.
Qed.

(** X2.  Whatever requests the application serves after it starts, the
    counter never exceeds the number of posts sent to the backend, and
    the number of posts never exceeds the number of pings: nothing is
    counted that was not forwarded, nothing is forwarded that was not
    preceded by a health check. *)
Theorem serve_keeps_trace_consistent (reqs : list (route * env)) :
  trace_consistent (snd (serve reqs fresh)).
Proof.
  assert (H : trace_consistent fresh) by (split; cbn; lia).
  revert H. generalize fresh. induction reqs as [| [r e] rest IH]; intros w H.
  - exact H.
  - rewrite serve_cons. apply IH. apply trace_consistent_step. exact H.
Qed.

(** The case analysis of [predict] past a health check that answered
    [True]: on the body, on the post, on the status and on the decoding
    of the answer. *)
Ltac healthy_cases e data r v Hj Ht Hb Hr Hv :=
  run; destruct (request_json e) as [data | ?x] eqn:Hj;
  [ cbn [negb]; destruct (truthy data) eqn:Ht; cbn [negb];
    [ destruct (backend e data) as [r | ?x] eqn:Hb;
      [ destruct ((400 <=? status_code r) && (status_code r <? 600))%Z eqn:Hr;
        [ | destruct (json r) as [v | ?x] eqn:Hv ] | ] | ] | ].



(** X4.  The outbound calls of one [predict] are the ping, followed by
    one post of the parsed body exactly when the health check answered
    [True] and the body is present and not empty.  The body is posted as
    it was parsed and never twice. *)
Theorem predict_pings_then_posts_once (e : env) (w : world) :
  outbound (snd (predict e w)) =
  outbound w ++
  GET_ping ::
    match fst (check_mlflow_serve_health e w), request_json e with
    | Ok true, Ok data => if truthy data then [POST_predict data] else []
    | _, _ => []
    end.
Proof.
  destruct (check_mlflow_serve_health e w) as [[b | x] w1] eqn:Hh; cbn [fst].
  - rewrite (predict_after_check e w Hh).
    pose proof (check_health_returns e w Hh); subst w1.
    destruct b; [| reflexivity].
    healthy_cases e data r v Hj Ht Hb Hr Hv;
      try (destruct x); cbn; rewrite <- ?app_assoc; reflexivity.
  - unfold predict, bind. rewrite Hh. cbn [snd].
    rewrite check_health_cases in Hh.
    destruct (ping e) as [r | y].
    + destruct (status_code r =? 200)%Z; discriminate Hh.
    + destruct (is_RequestException y); [discriminate Hh |].
      inversion Hh; subst. reflexivity.
Qed.

(** X5.  [predict] writes the reachability gauge through the health
    check only: after a request whose health check answered [b] the gauge
    holds [b], also when the post that followed could not connect or was
    rejected by the backend. *)
Theorem predict_gauge_is_ping_result (e : env) (w w1 : world) (b : bool) :
  check_mlflow_serve_health e w = (Ok b, w1) ->
  MLFLOW_SERVE_STATUS (snd (predict e w)) = (if b then 1 else 0).
Proof.
  intros Hh. rewrite (predict_after_check e w Hh).
  pose proof (check_health_returns e w Hh); subst w1.
  destruct b; [| reflexivity].
  healthy_cases e data r v Hj Ht Hb Hr Hv; try (destruct x); reflexivity.
Qed.

Lemma predict_gauge_is_ping_result_witness :
  let e := server_up (Ok features) (Raise (RequestException "Connection reset")) in
  fst (predict e fresh) =
    Ok (jsonify (error_dict "Failed to connect to MLflow model serve endpoint."), 503%Z)
  /\ MLFLOW_SERVE_STATUS (snd (predict e fresh)) = 1.
Proof.
  cbv zeta. split; [reflexivity |].
  exact (predict_gauge_is_ping_result
           (server_up (Ok features) (Raise (RequestException "Connection reset")))
           fresh (b := true) eq_refl).
Defined.

(** X6.  When no clock of a served request runs backwards, every
    observation in the histogram is 0 or more. *)
Theorem serve_observations_nonnegative (reqs : list (route * env)) :
  Forall (fun re => clock_monotone (snd re)) reqs ->
  Forall (fun d => 0 <= d) (PREDICTION_DURATION_SECONDS (snd (serve reqs fresh))).
Proof.
  assert (H : Forall (fun d => 0 <= d) (PREDICTION_DURATION_SECONDS fresh))
    by constructor.
  revert H. generalize fresh.
  induction reqs as [| [r e] rest IH]; intros w H Hm.
  - exact H.
  - rewrite serve_cons. inversion Hm as [| re l Hre Hl]; subst.
    apply IH; [| exact Hl].
    destruct (handle_effects r e w) as [posts [obs [_ [Hd [_ [_ [_ [_ [_ [_ Ho]]]]]]]]]].
    rewrite Hd. apply Forall_app. split; [exact H | exact (Ho Hre)].
Qed.

Lemma serve_observations_nonnegative_witness :
  let e := server_up (Ok features) (Ok (answer 200 (PyList [PyFloat 7.2]))) in
  PREDICTION_DURATION_SECONDS (snd (serve [(Predict, e); (Metrics, e); (Predict, e)] fresh))
    = [0.25 * 1 - 0.25 * 0; 0.25 * 3 - 0.25 * 2]%Q
  /\ Forall (fun d => 0 <= d)
       (PREDICTION_DURATION_SECONDS
          (snd (serve [(Predict, e); (Metrics, e); (Predict, e)] fresh))).
Proof.
  cbv zeta. split.
  - vm_compute. reflexivity.
  - apply serve_observations_nonnegative.
    repeat constructor; intros n; apply quarter_clock_monotone.
Defined.



Lemma count_predicts_cons (r : route) (e : env) (rest : list (route * env)) :
  count_predicts ((r, e) :: rest) =
  ((match r with Predict => 1 | _ => 0 end) + count_predicts rest)%nat.
Proof. unfold count_predicts. destruct r; reflexivity. Qed.

(** X8.  Serving requests only ever adds: the counter does not
    decrease and grows by at most one per [POST /predict] request, and
    the histogram and the trace of outbound calls keep what they held and
    are extended at the end. *)
Theorem serve_only_adds (reqs : list (route * env)) (w : world) :
  (PREDICTIONS_TOTAL w <= PREDICTIONS_TOTAL (snd (serve reqs w)))%N
  /\ (N.to_nat (PREDICTIONS_TOTAL (snd (serve reqs w)))
      <= N.to_nat (PREDICTIONS_TOTAL w) + count_predicts reqs)%nat
  /\ (exists obs,
        PREDICTION_DURATION_SECONDS (snd (serve reqs w)) =
        PREDICTION_DURATION_SECONDS w ++ obs)
  /\ (exists evs, outbound (snd (serve reqs w)) = outbound w ++ evs).
Proof.
  revert w. induction reqs as [| [r e] rest IH]; intros w.
  - cbn. split; [lia |]. split; [lia |].
    split; exists []; rewrite app_nil_r; reflexivity.
  - rewrite serve_cons, count_predicts_cons.
    destruct (IH (snd (handle r e w))) as [Hlo [Hhi [[obs' Hd'] [evs' Ho']]]].
    destruct (handle_effects r e w)
      as [posts [obs [Ho [Hd [Hn [_ [_ [_ [Hl [Hp _]]]]]]]]]].
    assert (Hb : (length obs <= match r with Predict => 1 | _ => 0 end)%nat).
    { destruct r; [lia | |]; rewrite Hp in Hl by discriminate; cbn in Hl; lia. }
    rewrite Hn in Hlo, Hhi.
    split; [lia |]. split; [lia |]. split.
    + exists (obs ++ obs'). rewrite Hd', Hd, app_assoc. reflexivity.
    + exists ((GET_ping :: posts) ++ evs'). rewrite Ho', Ho, app_assoc. reflexivity.
Qed.

(** X9.  Requests to [/metrics] and [/health] only ping: a run of them
    sends one ping per request and nothing else, and leaves the counter
    and the histogram as they were. *)
Theorem scrapes_only_ping (reqs : list (route * env)) (w : world) :
  Forall (fun re => fst re <> Predict) reqs ->
  outbound (snd (serve reqs w)) = outbound w ++ repeat GET_ping (length reqs)
  /\ PREDICTIONS_TOTAL (snd (serve reqs w)) = PREDICTIONS_TOTAL w
  /\ PREDICTION_DURATION_SECONDS (snd (serve reqs w)) = PREDICTION_DURATION_SECONDS w.
Proof.
  revert w. induction reqs as [| [r e] rest IH]; intros w Hr.
  - cbn. rewrite app_nil_r. auto.
  - inversion Hr as [| re l Hre Hl]; subst. cbn [fst] in Hre.
    rewrite serve_cons.
    destruct (IH (snd (handle r e w)) Hl) as [Ho' [Hn' Hd']].
    destruct (handle_effects r e w)
      as [posts [obs [Ho [Hd [Hn [_ [_ [_ [Hlen [Hp _]]]]]]]]]].
    rewrite (Hp Hre) in Ho, Hlen.
    assert (obs = []) as -> by (destruct obs; [reflexivity | cbn in Hlen; lia]).
    rewrite Ho', Hn', Hd', Ho, Hn, Hd. cbn [length repeat N.of_nat].
    rewrite <- app_assoc, app_nil_r, N.add_0_r. auto.
Qed.

Lemma scrapes_only_ping_witness :
  let up := server_up (Ok features) (Ok (answer 200 PyNone)) in
  let down := server_down (Ok features) in
  outbound (snd (serve [(Metrics, up); (Health, down); (Metrics, down)] fresh))
    = [GET_ping; GET_ping; GET_ping]
  /\ PREDICTIONS_TOTAL
       (snd (serve [(Metrics, up); (Health, down); (Metrics, down)] fresh)) = 0%N.
Proof.
  cbv zeta.
  destruct (scrapes_only_ping
              (reqs := [(Metrics, server_up (Ok features) (Ok (answer 200 PyNone)));
                        (Health, server_down (Ok features));
                        (Metrics, server_down (Ok features))]) fresh)
    as [Ho [Hn _]].
  - repeat constructor; cbn; discriminate.
  - split; [exact Ho | exact Hn].
Defined.

End InferenceExtra.


(** * Further properties of the sample probe *)

Module ExporterExtra.
Import Exporter ExporterSpec ExporterExtraSpec ExporterProofs.

Section WithFloatParser.

Variable float_of_str : string -> option Q.

Local Abbreviation float := (float float_of_str).
Local Abbreviation probe := (get_sample_prediction_from_api float_of_str).
Local Abbreviation tick := (tick float_of_str).
Local Abbreviation main_loop := (main_loop float_of_str).
Local Abbreviation predicted := (predicted float_of_str).

(** The latency that a tick started in [w] measures. *)
Local Abbreviation latency_ms e w :=
  ((clock e (S (clock_reads w)) - clock e (clock_reads w)) * 1000)%Q.

(** The probe returns the prediction read off the outside world, with
    a float latency whenever the answer normalised. *)
Lemma probe_result (e : env) (w : world) :
  exists l w',
    probe e w = (Ok (predicted e, l), w')
    /\ (l = PyFloat (latency_ms e w) \/ (l = PyNone /\ predicted e = PyNone))
    /\ LAST_PREDICTION_VALUE w' = LAST_PREDICTION_VALUE w
    /\ LATENCY_EXPORTER w' = LATENCY_EXPORTER w.
Proof.
  pose proof (probe_cases float_of_str e w) as H. cbv zeta in H.
  destruct (probe e w) as [r w'] eqn:Hp. cbn [fst snd] in H.
  destruct H as [Hl [Ht H]]. unfold ExporterExtraSpec.predicted.
  destruct (loaded_sample e) as [sample_data |].
  - destruct H as [_ H].
    destruct (forward_outcome e (payload_of sample_data)) as [v | x].
    + destruct H as [_ H].
      destruct (normalize float_of_str v) as [p | x]; subst r; eauto 10.
    + destruct H as [H _]. subst r. eauto 10.
  - inversion H; subst. eauto 10.
Qed.

(** The loop body past the probe, by cases on what the built-ins make
    of the prediction. *)
Lemma tick_after_probe (e : env) (w w' : world) (p : pyval) (l : Q) :
  probe e w = (Ok (p, PyFloat l), w') ->
  tick e w =
  if is_not_None p then
    match float p with
    | Raise x => (Raise x, w')
    | Ok q =>
        match format_2f p with
        | Raise x => (Raise x, published w' q l)
        | Ok _ => (Ok tt, published w' q l)
        end
    end
  else (Ok tt, w').
Proof.
  intros H. unfold Exporter.tick, bind at 1. rewrite H. cbn [fst snd].
  destruct (is_not_None p); [| reflexivity].
  unfold LAST_PREDICTION_VALUE_set, LATENCY_EXPORTER_set, lift, time_sleep,
    bind, ask, modify, ret.
  destruct (Exporter.float float_of_str p) as [q | x]; [| reflexivity].
  cbn [Exporter.float format_2f].
  destruct (format_2f p) as [[] | x]; reflexivity.
Qed.

(** Whether the loop body completes depends on the prediction only. *)
Lemma tick_completes_iff (e : env) (w : world) :
  fst (tick e w) = Ok tt <-> loop_survives (predicted e) = true.
Proof.
  destruct (probe_result e w) as [l [w' [Hp [[-> | [-> Hn]] _]]]].
  - rewrite (tick_after_probe e w Hp).
    destruct (predicted e) as [| b | z | q | s | vs | d]; cbn;
      try (split; [reflexivity | reflexivity]);
      try (split; discriminate).
    + unfold format_2f.
      destruct (Z.abs z <? int_too_large_for_float)%Z; cbn;
        split; (reflexivity || discriminate).
    + destruct (float_of_str s); cbn; split; discriminate.
  - rewrite Hn in Hp |- *.
    rewrite (tick_without_prediction float_of_str e w Hp).
    split; reflexivity.
Qed.

(** The loop body adds nothing to the trace of the probe and does not
    touch the reachability gauge. *)
Lemma tick_keeps_trace_and_status (e : env) (w : world) :
  outbound (snd (tick e w)) = outbound (snd (probe e w))
  /\ MLFLOW_SERVE_STATUS_EXPORTER (snd (tick e w)) =
     MLFLOW_SERVE_STATUS_EXPORTER (snd (probe e w)).
Proof.
  destruct (probe_result e w) as [l [w' [Hp [[-> | [-> Hn]] _]]]].
  - rewrite (tick_after_probe e w Hp), Hp. cbn [snd].
    destruct (is_not_None (predicted e)); [| auto].
    destruct (float (predicted e)) as [q | x]; [| auto].
    destruct (format_2f (predicted e)) as [[] | x]; auto.
  - rewrite Hn in Hp.
    rewrite (tick_without_prediction float_of_str e w Hp), Hp. auto.
Qed.

(** What one tick does to the trace and to the reachability gauge. *)
Lemma tick_world (e : env) (w : world) :
  outbound (snd (tick e w)) =
    outbound w ++
    match loaded_sample e with
    | Some sample_data => [POST_invocations (payload_of sample_data)]
    | None => []
    end
  /\ (MLFLOW_SERVE_STATUS_EXPORTER (snd (tick e w)) = 0
      \/ MLFLOW_SERVE_STATUS_EXPORTER (snd (tick e w)) = 1
      \/ MLFLOW_SERVE_STATUS_EXPORTER (snd (tick e w)) =
         MLFLOW_SERVE_STATUS_EXPORTER w)
  /\ (predicted e <> PyNone ->
      MLFLOW_SERVE_STATUS_EXPORTER (snd (tick e w)) = 1).
Proof.
  destruct (tick_keeps_trace_and_status e w) as [-> ->].
  pose proof (probe_cases float_of_str e w) as H. cbv zeta in H.
  destruct H as [_ [_ H]]. unfold ExporterExtraSpec.predicted.
  destruct (loaded_sample e) as [sample_data |].
  - destruct H as [-> H]. split; [reflexivity |].
    destruct (forward_outcome e (payload_of sample_data)) as [v | x].
    + destruct H as [-> _]. split; [auto |]. reflexivity.
    + destruct H as [_ ->]. split.
      * destruct (is_RequestException x); auto.
      * intros Hn. exfalso. apply Hn. reflexivity.
  - rewrite H. cbn [snd]. rewrite app_nil_r. split; [reflexivity |].
    split; [auto |]. intros Hn. exfalso. apply Hn. reflexivity.
Qed.

Lemma tick_posts_once_aux (e : env) (w : world) :
  exists posts,
    outbound (snd (tick e w)) = outbound w ++ posts
    /\ (length posts <= 1)%nat.
Proof.
  destruct (tick_world e w) as [Ho _]. rewrite Ho.
  destruct (loaded_sample e); eexists; (split; [reflexivity | cbn; lia]).
Qed.

Lemma main_loop_cons (e : env) (rest : list env) (w : world) :
  main_loop (e :: rest) w =
  match fst (tick e w) with
  | Ok _ => main_loop rest (snd (tick e w))
  | Raise x => (Raise x, snd (tick e w))
  end.
Proof.
  cbn [Exporter.main_loop]. destruct (tick e w) as [[[] | x] w']; reflexivity.
Qed.

(** X10.  The loop gets through a run of ticks exactly when every
    tick's prediction is [None] or a number that [Gauge.set] converts and
    [.2f] formats: a float, a bool, or an int within the range of a
    float.  Any other prediction (a list, a dict, a string) ends the
    loop. *)
Theorem main_loop_completes_iff (ticks : list env) (w : world) :
  fst (main_loop ticks w) = Ok tt
  <-> forallb (fun e => loop_survives (predicted e)) ticks = true.
Proof.
  revert w. induction ticks as [| e rest IH]; intros w.
  - cbn. split; reflexivity.
  - rewrite main_loop_cons. cbn [forallb]. rewrite andb_true_iff.
    rewrite <- (tick_completes_iff e w).
    destruct (fst (tick e w)) as [[] | x].
    + rewrite IH. tauto.
    + cbn [fst]. split; [discriminate | intros [H _]; discriminate H].
Qed.

(** X11.  A tick whose prediction is a number publishes it: the loop
    body completes, the prediction gauge holds [float(prediction)], the
    latency gauge holds the time between the two readings of the clock in
    milliseconds, which is not negative when the clock does not run
    backwards, and the reachability gauge holds 1. *)
Theorem tick_publishes_number (e : env) (w : world) :
  loop_survives (predicted e) = true ->
  predicted e <> PyNone ->
  exists q,
    float (predicted e) = Ok q
    /\ fst (tick e w) = Ok tt
    /\ LAST_PREDICTION_VALUE (snd (tick e w)) = q
    /\ LATENCY_EXPORTER (snd (tick e w)) = latency_ms e w
    /\ MLFLOW_SERVE_STATUS_EXPORTER (snd (tick e w)) = 1
    /\ (clock_monotone e -> 0 <= LATENCY_EXPORTER (snd (tick e w))).
Proof.
  intros Hs Hn.
  pose proof (proj2 (proj2 (tick_world e w)) Hn) as Hst.
  destruct (probe_result e w) as [l [w' [Hp [[-> | [_ Hnone]] _]]]];
    [| contradiction].
  rewrite (tick_after_probe e w Hp) in Hst |- *.
  assert (Hq : exists q, float (predicted e) = Ok q /\ format_2f (predicted e) = Ok tt
                         /\ is_not_None (predicted e) = true).
  { destruct (predicted e) as [| b | z | q | s | vs | d];
      try discriminate Hs; try (exfalso; apply Hn; reflexivity);
      try (eexists; repeat split; reflexivity).
    cbn in Hs. unfold Exporter.float, format_2f. rewrite Hs.
    eexists. repeat split; reflexivity. }
  destruct Hq as [q [Hf [Hfmt Hnn]]]. exists q.
  rewrite Hnn, Hf, Hfmt in Hst |- *. cbn [fst snd published
    LAST_PREDICTION_VALUE LATENCY_EXPORTER MLFLOW_SERVE_STATUS_EXPORTER] in Hst |- *.
  split; [reflexivity |]. split; [reflexivity |]. split; [reflexivity |].
  split; [reflexivity |]. split; [exact Hst |].
  intros Hm. apply Qmult_le_0_compat; [| discriminate].
  apply (proj1 (Qle_minus_iff _ _)). apply Hm.
Qed.

(** X12.  A prediction that is a string ends the loop even when it
    reads as a number, and then only after both gauges have been
    written: [Gauge.set] accepts the string, the [.2f] of the [print]
    that follows does not. *)
Theorem tick_string_prediction_stores_then_raises
    (e : env) (w : world) (s : string) (q : Q) :
  predicted e = PyStr s ->
  float_of_str s = Some q ->
  fst (tick e w) = Raise (ValueError "Unknown format code 'f' for object of type 'str'")
  /\ LAST_PREDICTION_VALUE (snd (tick e w)) = q
  /\ LATENCY_EXPORTER (snd (tick e w)) = latency_ms e w.
Proof.
  intros Hs Hq.
  destruct (probe_result e w) as [l [w' [Hp [[-> | [_ Hnone]] _]]]];
    [| rewrite Hs in Hnone; discriminate Hnone].
  rewrite (tick_after_probe e w Hp), Hs. cbn. rewrite Hq. cbn.
  split; [reflexivity |]. split; reflexivity.
Qed.

(** X13.  One tick posts at most once: the loaded sample wrapped under
    ["inputs"], when the sample loads, and nothing when it does not. *)
Theorem tick_posts_sample_once (e : env) (w : world) :
  outbound (snd (tick e w)) =
  outbound w ++
  match loaded_sample e with
  | Some sample_data => [POST_invocations (PyDict [("inputs"%string, sample_data)])]
  | None => []
  end.
Proof. exact (proj1 (tick_world e w)). Qed.

(** A tick without a sample does nothing at all. *)
Lemma tick_without_sample (e : env) (w : world) :
  loaded_sample e = None -> tick e w = (Ok tt, w).
Proof.
  intros Hl. apply tick_without_prediction with (latency := PyNone).
  rewrite probe_after_load, Hl. reflexivity.
Qed.

(** X14.  While the sample file is missing, unreadable or not JSON, the
    loop keeps running and changes nothing: no call goes out and the
    three gauges hold what they held. *)
Theorem main_loop_without_sample_changes_nothing (ticks : list env) (w : world) :
  Forall (fun e => loaded_sample e = None) ticks ->
  main_loop ticks w = (Ok tt, w).
Proof.
  induction 1 as [| e rest He _ IH].
  - reflexivity.
  - rewrite main_loop_cons, (tick_without_sample e w He). exact IH.
Qed.

Lemma status_is_bit_step (e : env) (w : world) :
  status_is_bit w -> status_is_bit (snd (tick e w)).
Proof.
  unfold status_is_bit. intros Hw.
  destruct (tick_world e w) as [_ [[H | [H | H]] _]]; rewrite H; auto.
Qed.

(** X15.  Whatever the ticks of a run bring, and also when the loop
    ends in an exception, the reachability gauge of the exporter holds 0
    or 1. *)
Theorem main_loop_status_is_bit (ticks : list env) :
  status_is_bit (snd (main_loop ticks initial)).
Proof.
  assert (H : status_is_bit initial) by (left; reflexivity).
  revert H. generalize initial.
  induction ticks as [| e rest IH]; intros w H.
  - exact H.
  - rewrite main_loop_cons.
    pose proof (status_is_bit_step e H) as Hs.
    destruct (fst (tick e w)) as [[] | x]; [apply IH; exact Hs | exact Hs].
Qed.

(** X16.  The loop never retries: after a run of ticks the trace has
    grown by at most one post per tick, and what it held before is still
    its beginning. *)
Theorem main_loop_posts_at_most_once_per_tick (ticks : list env) (w : world) :
  exists posts,
    outbound (snd (main_loop ticks w)) = outbound w ++ posts
    /\ (length posts <= length ticks)%nat.
Proof.
  revert w. induction ticks as [| e rest IH]; intros w.
  - exists []. cbn. rewrite app_nil_r. split; [reflexivity | lia].
  - rewrite main_loop_cons.
    pose proof (tick_posts_once_aux e w) as [p [Hp Hl]].
    destruct (fst (tick e w)) as [[] | x].
    + destruct (IH (snd (tick e w))) as [posts [Ho Hn]].
      exists (p ++ posts). rewrite Ho, Hp, <- app_assoc, length_app.
      split; [reflexivity | cbn; lia].
    + exists p. cbn [snd]. split; [exact Hp | cbn; lia].
Qed.

End WithFloatParser.

Lemma tick_publishes_number_witness :
  let e := probe_answered (Ok (answer 200 (PyList [PyFloat 7.2]))) in
  exists q,
    float no_str_is_a_float (predicted no_str_is_a_float e) = Ok q
    /\ fst (tick no_str_is_a_float e initial) = Ok tt
    /\ LAST_PREDICTION_VALUE (snd (tick no_str_is_a_float e initial)) = q
    /\ MLFLOW_SERVE_STATUS_EXPORTER (snd (tick no_str_is_a_float e initial)) = 1
    /\ 0 <= LATENCY_EXPORTER (snd (tick no_str_is_a_float e initial)).
Proof.
  cbv zeta.
  destruct (tick_publishes_number no_str_is_a_float
              (probe_answered (Ok (answer 200 (PyList [PyFloat 7.2])))) initial)
    as [q [Hf [Ht [Hl [_ [Hs Hm]]]]]].
  - reflexivity.
  - discriminate.
  - exists q. split; [exact Hf |]. split; [exact Ht |]. split; [exact Hl |].
    split; [exact Hs |]. apply Hm. intros n.
    apply InferenceProofs.quarter_clock_monotone.
Defined.

Lemma tick_string_prediction_stores_then_raises_witness :
  let e := probe_answered (Ok (answer 200 (PyList [PyStr "7.2"]))) in
  fst (tick only_7_2_is_a_float e initial)
    = Raise (ValueError "Unknown format code 'f' for object of type 'str'")
  /\ LAST_PREDICTION_VALUE (snd (tick only_7_2_is_a_float e initial)) = 7.2.
Proof.
  cbv zeta.
  destruct (tick_string_prediction_stores_then_raises only_7_2_is_a_float
              (probe_answered (Ok (answer 200 (PyList [PyStr "7.2"])))) initial
              (s := "7.2") (q := 7.2) eq_refl eq_refl)
    as [Ht [Hl _]].
  split; [exact Ht | exact Hl].
Defined.

Lemma main_loop_without_sample_changes_nothing_witness :
  let e := file_missing (Ok (answer 200 (PyList [PyFloat 7.2]))) in
  Forall (fun e => loaded_sample e = None) [e; e; e]
  /\ main_loop no_str_is_a_float [e; e; e] after_success = (Ok tt, after_success).
Proof.
  cbv zeta.
  assert (H : Forall (fun e => loaded_sample e = None)
                (let e := file_missing (Ok (answer 200 (PyList [PyFloat 7.2]))) in
                 [e; e; e]))
    by (repeat constructor).
  split; [exact H |].
  exact (main_loop_without_sample_changes_nothing no_str_is_a_float after_success H).
Defined.

End ExporterExtra.


(** * Properties of the ping address *)

Module InferenceConfigProofs.
Import InferenceConfig.

Lemma prefix_refl (s : string) : String.prefix s s = true.
Proof.
  induction s as [| c s IH]; [reflexivity |].
  cbn. destruct (Ascii.ascii_dec c c) as [_ | H]; [exact IH | contradiction].
Qed.

(** Nothing is left of a string that is passed over whole. *)
Lemma replace_from_passes_over (old new s : string) (k : nat) :
  (String.length s <= k)%nat -> replace_from k old new s = EmptyString.
Proof.
  revert k. induction s as [| c s IH]; intros k Hk; [reflexivity |].
  cbn in Hk. destruct k as [| k]; [lia |].
  cbn. apply IH. lia.
Qed.

Lemma replace_without_occurrence (old new s : string) :
  find old s = None -> replace old new s = s.
Proof.
  unfold replace. induction s as [| c s IH]; [reflexivity |].
  cbn [find replace_from].
  destruct (String.prefix old (String c s)); [discriminate |].
  destruct (find old s); [discriminate |].
  intros _. rewrite IH; reflexivity.
Qed.

Lemma replace_last_occurrence (old new base : string) :
  old <> EmptyString ->
  find old (base ++ old) = Some (String.length base) ->
  replace old new (base ++ old) = (base ++ new)%string.
Proof.
  intros Hold. unfold replace. induction base as [| c base IH].
  - intros _. cbn [String.append].
    destruct old as [| c old]; [contradiction |].
    cbn [replace_from]. rewrite prefix_refl.
    rewrite replace_from_passes_over by (cbn; lia).
    induction new as [| d new IHn]; [reflexivity |].
    cbn. rewrite IHn. reflexivity.
  - cbn [String.append find replace_from String.length].
    destruct (String.prefix old (String c (base ++ old))); [discriminate |].
    destruct (find old (base ++ old)) as [i |]; [| discriminate].
    intros H. inversion H; subst. rewrite IH; reflexivity.
Qed.

(** X17.  When the configured address of the model server ends in
    [/predict] and has no [/predict] before that, the health check pings
    the same address with [/ping] in the place of [/predict]. *)
Theorem ping_url_of_predict_url (environ : list (string * string)) (base : string) :
  MLFLOW_MODEL_SERVE_URL environ = (base ++ "/predict")%string ->
  find "/predict" (base ++ "/predict") = Some (String.length base) ->
  ping_url environ = (base ++ "/ping")%string.
Proof.
  intros Hu Hf. unfold ping_url. rewrite Hu.
  apply replace_last_occurrence; [discriminate | exact Hf].
Qed.

Lemma ping_url_of_predict_url_witness :
  ping_url [] = "http://127.0.0.1:5005/ping"%string.
Proof.
  exact (ping_url_of_predict_url [] "http://127.0.0.1:5005" eq_refl eq_refl).
Defined.

(** X18.  When the configured address of the model server does not
    contain [/predict], the health check pings that address itself: the
    [replace] changes nothing. *)
Theorem ping_url_without_predict (environ : list (string * string)) :
  find "/predict" (MLFLOW_MODEL_SERVE_URL environ) = None ->
  ping_url environ = MLFLOW_MODEL_SERVE_URL environ.
Proof.
  intros Hf. unfold ping_url. apply replace_without_occurrence. exact Hf.
Qed.

Lemma ping_url_without_predict_witness :
  ping_url [("MLFLOW_MODEL_SERVE_URL", "http://127.0.0.1:5005/invocations")%string]
  = "http://127.0.0.1:5005/invocations"%string.
Proof.
  exact (ping_url_without_predict
           [("MLFLOW_MODEL_SERVE_URL", "http://127.0.0.1:5005/invocations")%string]
           eq_refl).
Defined.

End InferenceConfigProofs.
